(** * Tubely media-upload handlers: a shallow embedding and its properties

    The development embeds the two source files of the upload backend,
    [src/api/thumbnails.ts] and [src/api/videos.ts], as functions in an
    error-and-state monad over an explicit world (database table, local
    disk, object-store bucket, in-memory thumbnail map, effect trace) and
    proves the properties the specification states about them. *)

From Stdlib Require Import ZArith Lia List Bool Ascii String.
From Stdlib Require Import Strings.Byte.
From Stdlib Require Import Floats.SpecFloat.
From stdpp Require Import base option list strings gmap.

Import ListNotations.
Local Open Scope string_scope.
Local Open Scope Z_scope.

(** ** JavaScript numerics used by the handlers *)

Module JsInt.

(** ToInt32: wrap an integer into the signed 32-bit range. *)
Definition wrap32 (z : Z) : Z := (z + 2 ^ 31) mod 2 ^ 32 - 2 ^ 31.

(** [a << b] on JS numbers holding integers: a 32-bit shift whose count is
    taken modulo 32. *)
Definition shl (a b : Z) : Z := wrap32 (Z.shiftl (wrap32 a) (b mod 32)).

End JsInt.

(** IEEE-754 binary64, the representation of every JS number, through the
    executable specification of the standard library. *)
Module JsNumber.

Definition prec : Z := 53.
Definition emax : Z := 1024.

Definition number : Type := spec_float.

Definition NaN : number := S754_nan.

(** The double nearest to an integer (exact below 2^53). *)
Definition of_Z (z : Z) : number := binary_normalize prec emax z 0 false.

Definition div : number -> number -> number := SFdiv prec emax.
Definition mul : number -> number -> number := SFmul prec emax.

(** Number equality as [===] sees it: NaN differs from itself and the two
    zeros are equal. *)
Definition eqb : number -> number -> bool := SFeqb.

(** [Math.floor]: the greatest integral double below or equal to the
    argument; NaN, the infinities and the zeros are returned unchanged. *)
Definition floor (x : number) : number :=
  match x with
  | S754_finite s m e =>
      if 0 <=? e then x
      else
        let d := 2 ^ (- e) in
        if s then binary_normalize prec emax (- ((Z.pos m + d - 1) / d)) 0 true
        else binary_normalize prec emax (Z.pos m / d) 0 false
  | _ => x
  end.

End JsNumber.

(** ** Strings and byte encodings *)

Definition ascii_eqb (a b : ascii) : bool := Ascii.eqb a b.

(** [s.split(c)] for a one-character separator. *)
Fixpoint split_on (c : ascii) (s : string) : list string :=
  match s with
  | EmptyString => [EmptyString]
  | String a s' =>
      if ascii_eqb a c then EmptyString :: split_on c s'
      else match split_on c s' with
           | h :: t => String a h :: t
           | [] => [String a EmptyString]
           end
  end.

(** A value interpolated in a template literal: [undefined] prints as the
    word. *)
Definition interpolate (o : option string) : string :=
  match o with
  | Some s => s
  | None => "undefined"
  end.

(** [arr.includes(s)] on an array of strings. *)
Definition includes (arr : list string) (s : string) : bool :=
  bool_decide (s ∈ arr).

Definition hex_digit (n : N) : ascii :=
  match n with
  | 0%N => "0" | 1%N => "1" | 2%N => "2" | 3%N => "3"
  | 4%N => "4" | 5%N => "5" | 6%N => "6" | 7%N => "7"
  | 8%N => "8" | 9%N => "9" | 10%N => "a" | 11%N => "b"
  | 12%N => "c" | 13%N => "d" | 14%N => "e" | _ => "f"
  end%char.

(** [buf.toString("hex")] *)
Fixpoint to_hex (bs : list byte) : string :=
  match bs with
  | [] => EmptyString
  | b :: rest =>
      let n := Byte.to_N b in
      String (hex_digit (n / 16)) (String (hex_digit (n mod 16)) (to_hex rest))
  end.

(** The URL-safe base64 alphabet. *)
Definition b64url_digit (n : N) : ascii :=
  if (n <? 26)%N then ascii_of_N (65 + n)
  else if (n <? 52)%N then ascii_of_N (97 + (n - 26))
  else if (n <? 62)%N then ascii_of_N (48 + (n - 52))
  else if (n =? 62)%N then "-"%char
  else "_"%char.

(** [buf.toString("base64url")]: three bytes to four characters, no
    padding. *)
Fixpoint to_base64url (bs : list byte) : string :=
  match bs with
  | [] => EmptyString
  | [a] =>
      let x := Byte.to_N a in
      String (b64url_digit (x / 4))
        (String (b64url_digit ((x mod 4) * 16)) EmptyString)
  | [a; b] =>
      let x := Byte.to_N a in
      let y := Byte.to_N b in
      String (b64url_digit (x / 4))
        (String (b64url_digit ((x mod 4) * 16 + y / 16))
           (String (b64url_digit ((y mod 16) * 4)) EmptyString))
  | a :: b :: c :: rest =>
      let x := Byte.to_N a in
      let y := Byte.to_N b in
      let z := Byte.to_N c in
      String (b64url_digit (x / 4))
        (String (b64url_digit ((x mod 4) * 16 + y / 16))
           (String (b64url_digit ((y mod 16) * 4 + z / 64))
              (String (b64url_digit (z mod 64)) (to_base64url rest))))
  end%N.

(** ** Values produced by [JSON.parse] *)

#[local] Set Warnings "-register-all".

Inductive JsVal : Type :=
| JUndefined
| JNull
| JBool (b : bool)
| JNum (n : JsNumber.number)
| JStr (s : string)
| JArr (items : list JsVal)
| JObj (props : list (string * JsVal)).

(** ** Errors, results and promises *)

Inductive Err : Type :=
| BadRequestError (msg : string)
| NotFoundError (msg : string)
| UserForbiddenError (msg : string)
| UserNotAuthenticatedError (msg : string)
| Error (msg : string)
| TypeError (msg : string)
| SyntaxError (msg : string).

Inductive Result (A : Type) : Type :=
| Ok (a : A)
| Throw (e : Err).

Arguments Ok {A} a.
Arguments Throw {A} e.

Inductive Promise (A : Type) : Type :=
| Fulfilled (a : A)
| Rejected (e : Err).

Arguments Fulfilled {A} a.
Arguments Rejected {A} e.

(** ** Data model *)

(** Modelled from the spec: the [Video] type of [src/db/videos], which is
    not part of the sources at hand.  A record has an identifier, an owning
    user, the two nullable media URLs and descriptive fields that the
    handlers treat opaquely. *)
Record Video : Type := mkVideo {
  id : string;
  userID : string;
  thumbnailURL : option string;
  videoURL : option string;
  meta : string
}.

Definition set_thumbnailURL (v : Video) (u : string) : Video :=
  mkVideo (id v) (userID v) (Some u) (videoURL v) (meta v).

Definition set_videoURL (v : Video) (u : string) : Video :=
  mkVideo (id v) (userID v) (thumbnailURL v) (Some u) (meta v).

(** The [Thumbnail] type of [thumbnails.ts]. *)
Record Thumbnail : Type := mkThumbnail {
  data : list byte;
  mediaType : string
}.

(** A [File] taken from multipart form data: its [size] and [type]
    properties and the bytes [arrayBuffer()] yields. *)
Record File : Type := mkFile {
  file_size : Z;
  file_type : string;
  file_bytes : list byte
}.

Inductive FormValue : Type :=
| FormString (s : string)
| FormFile (f : File).

Definition FormData : Type := list (string * FormValue).

(** [formData.get(name)]: the first entry of that name, or [null]. *)
Fixpoint form_get (fd : FormData) (name : string) : option FormValue :=
  match fd with
  | [] => None
  | (k, v) :: rest => if String.eqb k name then Some v else form_get rest name
  end.

(** The parts of a [BunRequest] the handlers read.  [req_form] is what
    [req.formData()] resolves to, or the error it rejects with. *)
Record Request : Type := mkRequest {
  req_videoId : option string;
  req_headers : list (string * string);
  req_form : Result FormData
}.

Inductive Body : Type :=
| BodyBytes (b : list byte)
| BodyJSON (v : Video).

Record Response : Type := mkResponse {
  status : Z;
  resp_headers : list (string * string);
  body : Body
}.

(** Modelled from the spec: [respondWithJSON] of [src/api/json], which is
    not part of the sources at hand; it answers with the given status and
    the payload as JSON. *)
Definition respondWithJSON (code : Z) (payload : Video) : Response :=
  mkResponse code [("Content-Type", "application/json")] (BodyJSON payload).

(** [new Response(body, { headers })] *)
Definition newResponse (b : list byte) (hs : list (string * string)) : Response :=
  mkResponse 200 hs (BodyBytes b).

(** The fields of [ApiConfig] the handlers read; the database handle and
    the S3 client denote the table and the bucket of the world below. *)
Record ApiConfig : Type := mkApiConfig {
  jwtSecret : string;
  assetsRoot : string;
  port : string;
  s3CfDistribution : string
}.

Record S3Object : Type := mkS3Object {
  s3_bytes : list byte;
  s3_type : string
}.

(** What a spawned process leaves behind once it has exited. *)
Record ProcResult : Type := mkProcResult {
  exited : Z;
  stdout : string;
  stderr : string;
  disk_after : gmap string (list byte)
}.

(** The collaborators outside the two source files: the auth module, the
    runtime ([crypto], [path], [Bun], [JSON]) and the outcome of each
    external operation of one request. *)
Record Externals : Type := mkExternals {
  getBearerToken : list (string * string) -> Result string;
  validateJWT : string -> string -> Result string;
  randomBytes : Z -> list byte;
  path_join : string -> string -> string;
  bunWriteError : string -> option Err;
  spawn : list string -> gmap string (list byte) -> ProcResult;
  JSON_parse : string -> Result JsVal;
  s3WriteError : string -> option Err;
  deleteError : string -> option Err;
  stringToNumber : string -> JsNumber.number;
  objectToNumber : JsVal -> Result JsNumber.number
}.

(** Effects in the order the handlers perform them. *)
Inductive Event : Type :=
| EvGetBearerToken
| EvValidateJWT
| EvConsoleLog
| EvGetVideo (i : string)
| EvFormData
| EvArrayBuffer
| EvRandomBytes
| EvBunWrite (path : string)
| EvSpawn (cmd : list string)
| EvS3Write (key : string)
| EvUpdateVideo (v : Video)
| EvDelete (path : string).

Record World : Type := mkWorld {
  db : list Video;
  disk : gmap string (list byte);
  bucket : gmap string S3Object;
  videoThumbnails : gmap string Thumbnail;
  trace : list Event
}.

Definition with_db (w : World) (d : list Video) : World :=
  mkWorld d (disk w) (bucket w) (videoThumbnails w) (trace w).

Definition with_disk (w : World) (d : gmap string (list byte)) : World :=
  mkWorld (db w) d (bucket w) (videoThumbnails w) (trace w).

Definition with_bucket (w : World) (b : gmap string S3Object) : World :=
  mkWorld (db w) (disk w) b (videoThumbnails w) (trace w).

Definition with_trace (w : World) (t : list Event) : World :=
  mkWorld (db w) (disk w) (bucket w) (videoThumbnails w) t.

(** Modelled from the spec: [getVideo] and [updateVideo] of
    [src/db/videos], which is not part of the sources at hand:
    [getVideo(db, id) -> VideoRecord | undefined] selects the row of that
    identifier and [updateVideo(db, record) -> void] rewrites it. *)
Definition getVideo (d : list Video) (i : string) : option Video :=
  find (fun v => String.eqb (id v) i) d.

Definition updateVideo (d : list Video) (v : Video) : list Video :=
  map (fun r => if String.eqb (id r) (id v) then v else r) d.

(** ** The handler monad: errors over a threaded world *)

Definition M (A : Type) : Type := World -> Result A * World.

Definition ret {A : Type} (a : A) : M A := fun w => (Ok a, w).

Definition throw {A : Type} (e : Err) : M A := fun w => (Throw e, w).

Definition bind {A B : Type} (m : M A) (k : A -> M B) : M B :=
  fun w =>
    match m w with
    | (Ok a, w') => k a w'
    | (Throw e, w') => (Throw e, w')
    end.

#[global] Instance M_ret : MRet M := @ret.
#[global] Instance M_bind : MBind M := fun A B k m => bind m k.

Definition emit (e : Event) : M unit :=
  fun w => (Ok tt, with_trace w (trace w ++ [e])).

Definition lift {A : Type} (r : Result A) : M A :=
  match r with
  | Ok a => ret a
  | Throw e => throw e
  end.

(** [await p] *)
Definition await {A : Type} (p : Promise A) : M A :=
  match p with
  | Fulfilled a => ret a
  | Rejected e => throw e
  end.

Definition read_db : M (list Video) := fun w => (Ok (db w), w).
Definition read_disk : M (gmap string (list byte)) := fun w => (Ok (disk w), w).
Definition read_thumbnails : M (gmap string Thumbnail) :=
  fun w => (Ok (videoThumbnails w), w).
Definition write_db (d : list Video) : M unit := fun w => (Ok tt, with_db w d).
Definition write_disk (d : gmap string (list byte)) : M unit :=
  fun w => (Ok tt, with_disk w d).
Definition write_bucket (f : gmap string S3Object -> gmap string S3Object) : M unit :=
  fun w => (Ok tt, with_bucket w (f (bucket w))).

(** ** Runtime operations *)

Section Runtime.

Context (X : Externals).

(** [Bun.write(path, data)]: starts the write and returns its promise;
    the promise rejects when the write fails. *)
Definition Bun_write (path : string) (bytes : list byte) : M (Promise Z) :=
  emit (EvBunWrite path);;
  match bunWriteError X path with
  | Some e => mret (Rejected e)
  | None =>
      d ← read_disk;
      write_disk (<[path := bytes]> d);;
      mret (Fulfilled (Z.of_nat (length bytes)))
  end.

(** [Bun.spawn(cmd, ...)] followed by [await proc.exited]. *)
Definition Bun_spawn (cmd : list string) : M ProcResult :=
  emit (EvSpawn cmd);;
  d ← read_disk;
  let r := spawn X cmd d in
  write_disk (disk_after r);;
  mret r.

(** [s3File.write(Bun.file(path))] for the object of key [key] tagged
    with [type]. *)
Definition s3_write (key type path : string) : M (Promise Z) :=
  emit (EvS3Write key);;
  d ← read_disk;
  match d !! path with
  | None => mret (Rejected (Error "ENOENT"))
  | Some bytes =>
      match s3WriteError X key with
      | Some e => mret (Rejected e)
      | None =>
          write_bucket (fun b => <[key := mkS3Object bytes type]> b);;
          mret (Fulfilled (Z.of_nat (length bytes)))
      end
  end.

(** [Bun.file(path).delete()] *)
Definition file_delete (path : string) : M (Promise unit) :=
  emit (EvDelete path);;
  d ← read_disk;
  match d !! path with
  | None => mret (Rejected (Error "ENOENT"))
  | Some _ =>
      match deleteError X path with
      | Some e => mret (Rejected e)
      | None => write_disk (delete path d);; mret (Fulfilled tt)
      end
  end.

Definition call_getBearerToken (hs : list (string * string)) : M string :=
  emit EvGetBearerToken;; lift (getBearerToken X hs).

Definition call_validateJWT (token secret : string) : M string :=
  emit EvValidateJWT;; lift (validateJWT X token secret).

Definition call_getVideo (i : string) : M (option Video) :=
  emit (EvGetVideo i);; d ← read_db; mret (getVideo d i).

Definition call_updateVideo (v : Video) : M unit :=
  emit (EvUpdateVideo v);; d ← read_db; write_db (updateVideo d v).

Definition call_formData (req : Request) : M FormData :=
  emit EvFormData;; lift (req_form req).

Definition call_arrayBuffer (f : File) : M (list byte) :=
  emit EvArrayBuffer;; mret (file_bytes f).

Definition call_randomBytes (n : Z) : M (list byte) :=
  emit EvRandomBytes;; mret (randomBytes X n).

End Runtime.

(** ** Property access and coercions on parsed JSON *)

Fixpoint prop_lookup (k : string) (props : list (string * JsVal)) : JsVal :=
  match props with
  | [] => JUndefined
  | (k', v) :: rest => if String.eqb k' k then v else prop_lookup k rest
  end.

(** [v.k] for the property names the prober reads ([streams], [length],
    [width], [height]); reading a property of [null] or [undefined]
    throws. *)
Definition js_get (v : JsVal) (k : string) : Result JsVal :=
  match v with
  | JUndefined | JNull => Throw (TypeError "cannot read property")
  | JObj props => Ok (prop_lookup k props)
  | JArr items =>
      if String.eqb k "length"
      then Ok (JNum (JsNumber.of_Z (Z.of_nat (length items))))
      else Ok JUndefined
  | JStr s =>
      if String.eqb k "length"
      then Ok (JNum (JsNumber.of_Z (Z.of_nat (String.length s))))
      else Ok JUndefined
  | JBool _ | JNum _ => Ok JUndefined
  end.

(** [v[0]] for a value that is neither [null] nor [undefined]. *)
Definition js_first (v : JsVal) : JsVal :=
  match v with
  | JArr (x :: _) => x
  | JStr (String c _) => JStr (String c EmptyString)
  | JObj props => prop_lookup "0" props
  | _ => JUndefined
  end.

Definition is_zero_or_nan (n : JsNumber.number) : bool :=
  match n with
  | S754_zero _ | S754_nan => true
  | _ => false
  end.

Definition js_truthy (v : JsVal) : bool :=
  match v with
  | JUndefined | JNull => false
  | JBool b => b
  | JNum n => negb (is_zero_or_nan n)
  | JStr s => negb (String.eqb s "")
  | JArr _ | JObj _ => true
  end.

(** [v === n] for a number [n]: no coercion. *)
Definition strict_eq_num (v : JsVal) (n : JsNumber.number) : bool :=
  match v with
  | JNum m => JsNumber.eqb m n
  | _ => false
  end.

(** ToNumber, as the division applies it to its left operand.  A string
    goes through the runtime's StringToNumber, which never throws; an array
    or an object is first converted to a primitive, and that conversion
    throws a [TypeError] when neither [valueOf] nor [toString] yields one
    (a parsed object with an own [toString] entry, which is never
    callable). *)
Definition ToNumber (X : Externals) (v : JsVal) : Result JsNumber.number :=
  match v with
  | JNum n => Ok n
  | JUndefined => Ok JsNumber.NaN
  | JNull => Ok (S754_zero false)
  | JBool b => Ok (if b then JsNumber.of_Z 1 else S754_zero false)
  | JStr s => Ok (stringToNumber X s)
  | JArr _ | JObj _ => objectToNumber X v
  end.

(** ** [src/api/thumbnails.ts] *)

Module Thumbnails.

Definition MAX_UPLOAD_SIZE : Z := JsInt.shl 10 20.

Section WithExternals.

Context (X : Externals).

Definition handlerGetThumbnail (cfg : ApiConfig) (req : Request) : M Response :=
  match req_videoId req with
  | None => throw (BadRequestError "Invalid video ID")
  | Some videoId =>
      if String.eqb videoId "" then throw (BadRequestError "Invalid video ID")
      else
        video ← call_getVideo videoId;
        match video with
        | None => throw (NotFoundError "Couldn't find video")
        | Some _ =>
            thumbnails ← read_thumbnails;
            match thumbnails !! videoId with
            | None => throw (NotFoundError "Thumbnail not found")
            | Some thumbnail =>
                mret (newResponse (data thumbnail)
                        [("Content-Type", mediaType thumbnail);
                         ("Cache-Control", "no-store")])
            end
        end
  end.

Definition handlerUploadThumbnail (cfg : ApiConfig) (req : Request) : M Response :=
  match req_videoId req with
  | None => throw (BadRequestError "Invalid video ID")
  | Some videoId =>
      if String.eqb videoId "" then throw (BadRequestError "Invalid video ID")
      else
        token ← call_getBearerToken X (req_headers req);
        user ← call_validateJWT X token (jwtSecret cfg);
        emit EvConsoleLog;;
        formData ← call_formData req;
        match form_get formData "thumbnail" with
        | Some (FormFile thumbnail) =>
            if MAX_UPLOAD_SIZE <? file_size thumbnail
            then throw (BadRequestError "Thumbnail file size is greater than 10MB")
            else
              let mediaType := file_type thumbnail in
              if negb (includes ["image/jpeg"; "image/png"] mediaType)
              then throw (BadRequestError "Only JPEG and PNG files allowed!")
              else
                bytes ← call_arrayBuffer thumbnail;
                video ← call_getVideo videoId;
                match video with
                | None => throw (NotFoundError "Couldn't find video")
                | Some video =>
                    if negb (String.eqb (userID video) user)
                    then throw (UserForbiddenError "Editing video not allowed.")
                    else
                      rnd ← call_randomBytes X 32;
                      let name := to_base64url rnd in
                      let extension := split_on "/" mediaType !! 1%nat in
                      (* the promise of the write is dropped: no await *)
                      Bun_write X
                        (path_join X (assetsRoot cfg)
                           (name +:+ "." +:+ interpolate extension))
                        bytes;;
                      let video :=
                        set_thumbnailURL video
                          ("http://localhost:" +:+ port cfg +:+ "/assets/"
                             +:+ name +:+ "." +:+ interpolate extension) in
                      call_updateVideo video;;
                      mret (respondWithJSON 200 video)
                end
        | _ => throw (BadRequestError "Thumbnail file missing")
        end
  end.

End WithExternals.

End Thumbnails.

(** ** [src/api/videos.ts] *)

Module Videos.

Definition MAX_UPLOAD_SIZE : Z := JsInt.shl 1 30.

Section WithExternals.

Context (X : Externals).

(** The closing conditional of [getVideoAspectRatio].  Each division
    coerces its dimension first, which can throw; the second test, and
    with it the coercion of [width], is reached only when the first test
    fails. *)
Definition aspect (width height : JsVal) : Result string :=
  match ToNumber X height with
  | Throw e => Throw e
  | Ok h =>
      if strict_eq_num width
           (JsNumber.floor
              (JsNumber.mul (JsNumber.of_Z 16) (JsNumber.div h (JsNumber.of_Z 9))))
      then Ok "landscape"
      else
        match ToNumber X width with
        | Throw e => Throw e
        | Ok w =>
            if strict_eq_num height
                 (JsNumber.floor
                    (JsNumber.mul (JsNumber.of_Z 16)
                       (JsNumber.div w (JsNumber.of_Z 9))))
            then Ok "portrait"
            else Ok "other"
        end
  end.

Definition getVideoAspectRatio (filePath : string) : M string :=
  proc ← Bun_spawn X
    ["ffprobe"; "-v"; "error"; "-print_format"; "json"; "-show_streams";
     filePath];
  if negb (exited proc =? 0) then throw (Error (stderr proc))
  else
    output ← lift (JSON_parse X (stdout proc));
    streams ← lift (js_get output "streams");
    if negb (js_truthy streams) then throw (Error "No video streams found")
    else
      len ← lift (js_get streams "length");
      if strict_eq_num len (JsNumber.of_Z 0)
      then throw (Error "No video streams found")
      else
        let first := js_first streams in
        width ← lift (js_get first "width");
        height ← lift (js_get first "height");
        lift (aspect width height).

Definition processVideoForFastStart (inputFilePath : string) : M string :=
  let outputFilePath := inputFilePath +:+ ".processed" in
  proc ← Bun_spawn X
    ["ffmpeg"; "-i"; inputFilePath; "-movflags"; "faststart";
     "-map_metadata"; "0"; "-codec"; "copy"; "-f"; "mp4"; outputFilePath];
  if negb (exited proc =? 0) then throw (Error (stderr proc))
  else mret outputFilePath.

Definition handlerUploadVideo (cfg : ApiConfig) (req : Request) : M Response :=
  match req_videoId req with
  | None => throw (BadRequestError "Invalid video ID")
  | Some videoId =>
      if String.eqb videoId "" then throw (BadRequestError "Invalid video ID")
      else
        token ← call_getBearerToken X (req_headers req);
        user ← call_validateJWT X token (jwtSecret cfg);
        video ← call_getVideo videoId;
        match video with
        | None => throw (NotFoundError "Couldn't find video")
        | Some video =>
            if negb (String.eqb (userID video) user)
            then throw (UserForbiddenError "Editing video not allowed.")
            else
              formData ← call_formData req;
              match form_get formData "video" with
              | Some (FormFile upload) =>
                  if MAX_UPLOAD_SIZE <? file_size upload
                  then throw (BadRequestError "video file size is greater than 1GB")
                  else
                    let mediaType := file_type upload in
                    if negb (includes ["video/mp4"] mediaType)
                    then throw (BadRequestError "Only JPEG and PNG files allowed!")
                    else
                      let extension := split_on "/" mediaType !! 1%nat in
                      bytes ← call_arrayBuffer upload;
                      let filePath :=
                        path_join X (assetsRoot cfg)
                          (videoId +:+ "." +:+ interpolate extension) in
                      written ← Bun_write X filePath bytes;
                      await written;;
                      category ← getVideoAspectRatio filePath;
                      rnd ← call_randomBytes X 32;
                      let name := to_hex rnd in
                      let key :=
                        category +:+ "/" +:+ name +:+ "." +:+ interpolate extension in
                      processesFilePath ← processVideoForFastStart filePath;
                      stored ← s3_write X key mediaType processesFilePath;
                      await stored;;
                      let video :=
                        set_videoURL video (s3CfDistribution cfg +:+ "/" +:+ key) in
                      call_updateVideo video;;
                      deleted ← file_delete X processesFilePath;
                      await deleted;;
                      mret (respondWithJSON 200 video)
              | _ => throw (BadRequestError "video file missing")
              end
        end
  end.

End WithExternals.

End Videos.

(** ** A concrete environment for examples *)

Module Demo.

Definition cfg : ApiConfig :=
  mkApiConfig "secret" "/srv/assets" "8091" "https://cdn.example.net".

(** A stand-in for the auth module: the token names the user. *)
Definition getBearerToken (hs : list (string * string)) : Result string :=
  match hs with
  | (k, v) :: _ =>
      if String.eqb k "Authorization" then Ok v
      else Throw (UserNotAuthenticatedError "Malformed authorization header")
  | [] => Throw (UserNotAuthenticatedError "Malformed authorization header")
  end.

Definition validateJWT (token secret : string) : Result string :=
  if String.eqb secret "secret" then Ok token
  else Throw (UserNotAuthenticatedError "Invalid token").

Definition dq : string := String (ascii_of_nat 34) EmptyString.

(** What ffprobe prints for one 1920x1080 stream. *)
Definition probe_text : string :=
  "{" +:+ dq +:+ "streams" +:+ dq +:+ ":[{" +:+ dq +:+ "width" +:+ dq
    +:+ ":1920," +:+ dq +:+ "height" +:+ dq +:+ ":1080}]}".

Definition probe_json : JsVal :=
  JObj [("streams",
         JArr [JObj [("width", JNum (JsNumber.of_Z 1920));
                     ("height", JNum (JsNumber.of_Z 1080))]])].

Definition JSON_parse (s : string) : Result JsVal :=
  if String.eqb s probe_text then Ok probe_json
  else Throw (SyntaxError "JSON Parse error").

(** ffprobe prints the stream description; ffmpeg copies its input (third
    argument) to its output (last argument). *)
Definition spawn (cmd : list string) (d : gmap string (list byte)) : ProcResult :=
  match cmd with
  | "ffprobe" :: _ => mkProcResult 0 probe_text "" d
  | "ffmpeg" :: _ =>
      match cmd !! 2%nat, last cmd, (cmd !! 2%nat) ≫= (fun p => d !! p) with
      | Some _, Some out, Some bytes => mkProcResult 0 "" "" (<[out := bytes]> d)
      | _, _, _ => mkProcResult 1 "" "No such file or directory" d
      end
  | _ => mkProcResult 127 "" "command not found" d
  end.

(** A stand-in for the conversion of arrays and objects: an object with an
    own [toString] entry cannot be converted, the rest read as NaN. *)
Definition objectToNumber (v : JsVal) : Result JsNumber.number :=
  match v with
  | JObj props =>
      if existsb (fun kv => String.eqb (fst kv) "toString") props
      then Throw (TypeError "cannot convert object to primitive value")
      else Ok JsNumber.NaN
  | _ => Ok JsNumber.NaN
  end.

Definition externals (diskError : option Err) : Externals :=
  mkExternals getBearerToken validateJWT
    (fun n => repeat "*"%byte (Z.to_nat n))
    (fun a b => a +:+ "/" +:+ b)
    (fun _ => diskError)
    spawn JSON_parse
    (fun _ => None) (fun _ => None)
    (fun _ => JsNumber.NaN) objectToNumber.

Definition alice_video : Video := mkVideo "v1" "alice" None None "Holiday".

Definition world : World := mkWorld [alice_video] ∅ ∅ ∅ [].

Definition jpeg : File := mkFile 3 "image/jpeg" ["a"; "b"; "c"]%byte.
Definition mp4 : File := mkFile 4 "video/mp4" ["m"; "o"; "o"; "v"]%byte.
Definition huge_jpeg : File := mkFile 10485761 "image/jpeg" [].
Definition gif : File := mkFile 3 "image/gif" ["G"; "I"; "F"]%byte.

Definition upload (vid user field : string) (f : File) : Request :=
  mkRequest (Some vid) [("Authorization", user)] (Ok [(field, FormFile f)]).

Definition fetch (vid : string) : Request := mkRequest (Some vid) [] (Ok []).

(** An upload whose path parameter is the empty string. *)
Definition nameless_upload : Request :=
  mkRequest (Some "") [("Authorization", "alice")] (Ok [("video", FormFile mp4)]).

Definition huge_mp4 : File := mkFile 1073741825 "video/mp4" [].
Definition full_jpeg : File := mkFile 10485760 "image/jpeg" ["a"; "b"; "c"]%byte.
Definition full_mp4 : File := mkFile 1073741824 "video/mp4" ["m"; "o"; "o"; "v"]%byte.
Definition webm : File := mkFile 4 "video/webm" ["w"; "e"; "b"; "m"]%byte.

(** The name [to_base64url] derives from the random bytes of the
    environment, and the one [to_hex] derives. *)
Definition name64 : string := "KioqKioqKioqKioqKioqKioqKioqKioqKioqKioqKio".
Definition name16 : string :=
  "2a2a2a2a2a2a2a2a2a2a2a2a2a2a2a2a2a2a2a2a2a2a2a2a2a2a2a2a2a2a2a2a".

(** A disk that refuses every write. *)
Definition full_disk : Externals := externals (Some (Error "ENOSPC")).

(** An environment in which no file can be deleted. *)
Definition stuck_cleanup : Externals :=
  mkExternals getBearerToken validateJWT
    (fun n => repeat "*"%byte (Z.to_nat n))
    (fun a b => a +:+ "/" +:+ b)
    (fun _ => None)
    spawn JSON_parse
    (fun _ => None) (fun _ => Some (Error "EBUSY"))
    (fun _ => JsNumber.NaN) objectToNumber.

(** An environment whose probe output parses to [out]. *)
Definition with_probe (out : JsVal) : Externals :=
  mkExternals getBearerToken validateJWT
    (fun n => repeat "*"%byte (Z.to_nat n))
    (fun a b => a +:+ "/" +:+ b)
    (fun _ => None)
    spawn (fun _ => Ok out)
    (fun _ => None) (fun _ => None)
    (fun _ => JsNumber.NaN) objectToNumber.

(** A probe that finds an audio stream first: no dimensions. *)
Definition audio_json : JsVal :=
  JObj [("streams", JArr [JObj [("codec_type", JStr "audio")]])].

Definition png : File := mkFile 3 "image/png" ["p"; "n"; "g"]%byte.

(** A form whose [thumbnail] and [video] fields are text, not files. *)
Definition text_upload (vid user : string) : Request :=
  mkRequest (Some vid) [("Authorization", user)]
    (Ok [("thumbnail", FormString "cat.jpg"); ("video", FormString "cat.mp4")]).

(** A request without credentials. *)
Definition anonymous_upload (vid : string) : Request :=
  mkRequest (Some vid) [] (Ok [("thumbnail", FormFile jpeg); ("video", FormFile mp4)]).

(** Alice uploads a video, and a thumbnail, for her record. *)
Definition video_ok : Result Response * World :=
  Videos.handlerUploadVideo (externals None) cfg
    (upload "v1" "alice" "video" mp4) world.

Definition thumbnail_ok : Result Response * World :=
  Thumbnails.handlerUploadThumbnail (externals None) cfg
    (upload "v1" "alice" "thumbnail" jpeg) world.

(** A world in which the in-memory map holds a thumbnail for alice's
    video. *)
Definition world_with_thumbnail : World :=
  mkWorld [alice_video] ∅ ∅ {["v1" := mkThumbnail ["a"; "b"; "c"]%byte "image/jpeg"]} [].

End Demo.

(** ** Vocabulary of the properties *)

(** The effects a run appended to the trace. *)
Definition events_since (w w' : World) : list Event :=
  drop (length (trace w)) (trace w').

Definition is_storage_write (e : Event) : bool :=
  match e with
  | EvBunWrite _ | EvS3Write _ => true
  | _ => false
  end.

Definition is_spawn (e : Event) : bool :=
  match e with
  | EvSpawn _ => true
  | _ => false
  end.

(** Extraction or reading of the submitted file. *)
Definition touches_file (e : Event) : bool :=
  match e with
  | EvFormData | EvArrayBuffer => true
  | _ => false
  end.

Definition none_of (p : Event -> bool) (es : list Event) : Prop :=
  forallb (fun e => negb (p e)) es = true.

(** The request names a video: the path parameter is present and not
    empty. *)
Definition names_video (req : Request) (vid : string) : Prop :=
  req_videoId req = Some vid /\ vid <> "".

(** The bearer token of the request resolves to [user]. *)
Definition authenticated (X : Externals) (cfg : ApiConfig) (req : Request)
    (user : string) : Prop :=
  exists token,
    getBearerToken X (req_headers req) = Ok token /\
    validateJWT X token (jwtSecret cfg) = Ok user.

(** The multipart form of the request parses and holds file [f] under
    [field]. *)
Definition carries (req : Request) (field : string) (f : File) : Prop :=
  exists fd, req_form req = Ok fd /\ form_get fd field = Some (FormFile f).

Definition is_BadRequest (r : Result Response) : Prop :=
  exists msg, r = Throw (BadRequestError msg).

Definition is_failure (r : Result Response) : Prop :=
  exists e, r = Throw e.

(** The stores of two worlds agree: table, disk, bucket and thumbnail
    map. *)
Definition same_stores (w w' : World) : Prop :=
  db w' = db w /\ disk w' = disk w /\ bucket w' = bucket w /\
  videoThumbnails w' = videoThumbnails w.

(** The round trip as the specification words it: after a successful
    upload of a JPEG thumbnail for [vid], fetching the thumbnail of [vid]
    from the world the upload left succeeds with the uploaded bytes and the
    declared media type. *)
Definition thumbnail_round_trip (X : Externals) (cfg : ApiConfig)
    (req greq : Request) (vid : string) (f : File) (w : World) : Prop :=
  names_video req vid -> names_video greq vid ->
  carries req "thumbnail" f -> file_type f = "image/jpeg" ->
  forall resp w',
    Thumbnails.handlerUploadThumbnail X cfg req w = (Ok resp, w') ->
    exists got,
      fst (Thumbnails.handlerGetThumbnail cfg greq w') = Ok got /\
      body got = BodyBytes (file_bytes f) /\
      In ("Content-Type", file_type f) (resp_headers got).

(** The record of [vid] points at [url] while the disk holds nothing under
    [path], the file that [url] serves. *)
Definition dangling_thumbnail (w : World) (vid url path : string) : Prop :=
  (exists v, getVideo (db w) vid = Some v /\ thumbnailURL v = Some url) /\
  disk w !! path = None.

(** The effects of a complete video upload, in order: the same path is
    written, probed, transcoded from, and its processed copy uploaded and
    deleted. *)
Definition video_pipeline (vid filePath key : string) (v : Video) : list Event :=
  [EvGetBearerToken; EvValidateJWT; EvGetVideo vid; EvFormData; EvArrayBuffer;
   EvBunWrite filePath;
   EvSpawn ["ffprobe"; "-v"; "error"; "-print_format"; "json"; "-show_streams";
            filePath];
   EvRandomBytes;
   EvSpawn ["ffmpeg"; "-i"; filePath; "-movflags"; "faststart";
            "-map_metadata"; "0"; "-codec"; "copy"; "-f"; "mp4";
            filePath +:+ ".processed"];
   EvS3Write key; EvUpdateVideo v; EvDelete (filePath +:+ ".processed")].

(** The effects of a complete thumbnail upload, in order. *)
Definition thumbnail_pipeline (vid path : string) (v : Video) : list Event :=
  [EvGetBearerToken; EvValidateJWT; EvConsoleLog; EvFormData; EvArrayBuffer;
   EvGetVideo vid; EvRandomBytes; EvBunWrite path; EvUpdateVideo v].

(** The command lines of the two external tools. *)
Definition ffprobe_command (filePath : string) : list string :=
  ["ffprobe"; "-v"; "error"; "-print_format"; "json"; "-show_streams"; filePath].

Definition ffmpeg_command (inputFilePath : string) : list string :=
  ["ffmpeg"; "-i"; inputFilePath; "-movflags"; "faststart"; "-map_metadata";
   "0"; "-codec"; "copy"; "-f"; "mp4"; inputFilePath +:+ ".processed"].

Definition is_delete (e : Event) : bool :=
  match e with
  | EvDelete _ => true
  | _ => false
  end.

(** The three aspect categories. *)
Definition categories : list string := ["landscape"; "portrait"; "other"].

Definition is_number (v : JsVal) : bool :=
  match v with
  | JNum _ => true
  | _ => false
  end.

(** The values whose conversion to a number runs no method of the value
    and so cannot throw: everything but objects and arrays. *)
Definition is_primitive (v : JsVal) : bool :=
  match v with
  | JArr _ | JObj _ => false
  | _ => true
  end.

(** ** Properties *)

(** *** The embedding on small inputs *)

Example ceiling_thumbnails : Thumbnails.MAX_UPLOAD_SIZE = 10485760.
Proof. reflexivity. Qed.

Example ceiling_videos : Videos.MAX_UPLOAD_SIZE = 1073741824.
Proof. reflexivity. Qed.

Example shl_wraps : JsInt.shl 1 31 = -2147483648.
Proof. reflexivity. Qed.

Example split_media_type : split_on "/" "image/jpeg" = ["image"; "jpeg"].
Proof. reflexivity. Qed.

Example split_without_separator : split_on "/" "mp4" !! 1%nat = None.
Proof. reflexivity. Qed.

Example hex_of_bytes : to_hex ["000"; "255"; "026"]%byte = "00ff1a".
Proof. reflexivity. Qed.

Example base64url_of_bytes :
  to_base64url ["000"; "255"; "026"; "251"]%byte = "AP8a-w".
Proof. reflexivity. Qed.

Example floor_of_quotient :
  JsNumber.floor
    (JsNumber.mul (JsNumber.of_Z 16)
       (JsNumber.div (JsNumber.of_Z 1000) (JsNumber.of_Z 9)))
  = JsNumber.of_Z 1777.
Proof. vm_compute. reflexivity. Qed.

Example floor_of_negative :
  JsNumber.floor (JsNumber.div (JsNumber.of_Z (-7)) (JsNumber.of_Z 2))
  = JsNumber.of_Z (-4).
Proof. vm_compute. reflexivity. Qed.

Example aspect_without_dimensions :
  Videos.aspect (Demo.externals None) JUndefined JUndefined = Ok "other".
Proof. vm_compute. reflexivity. Qed.

Example aspect_of_unconvertible_height :
  Videos.aspect (Demo.externals None) (JNum (JsNumber.of_Z 1920))
    (JObj [("toString", JNum (JsNumber.of_Z 0))])
  = Throw (TypeError "cannot convert object to primitive value").
Proof. vm_compute. reflexivity. Qed.

Example aspect_of_unconvertible_width :
  Videos.aspect (Demo.externals None) (JObj [("toString", JNum (JsNumber.of_Z 0))])
    JUndefined
  = Throw (TypeError "cannot convert object to primitive value").
Proof. vm_compute. reflexivity. Qed.

Example probe_of_portrait :
  fst (Videos.getVideoAspectRatio
         (Demo.with_probe
            (JObj [("streams",
                    JArr [JObj [("width", JNum (JsNumber.of_Z 1080));
                                ("height", JNum (JsNumber.of_Z 1920))]])]))
         "/srv/assets/v1.mp4" Demo.world) = Ok "portrait".
Proof. vm_compute. reflexivity. Qed.

Example probe_of_square :
  fst (Videos.getVideoAspectRatio
         (Demo.with_probe
            (JObj [("streams",
                    JArr [JObj [("width", JNum (JsNumber.of_Z 1000));
                                ("height", JNum (JsNumber.of_Z 1000))]])]))
         "/srv/assets/v1.mp4" Demo.world) = Ok "other".
Proof. vm_compute. reflexivity. Qed.

Example probe_of_unconvertible_height :
  fst (Videos.getVideoAspectRatio
         (Demo.with_probe
            (JObj [("streams",
                    JArr [JObj [("width", JNum (JsNumber.of_Z 1920));
                                ("height", JObj [("toString", JNum (JsNumber.of_Z 0))])]])]))
         "/srv/assets/v1.mp4" Demo.world)
  = Throw (TypeError "cannot convert object to primitive value").
Proof. vm_compute. reflexivity. Qed.

Example probe_of_demo :
  fst (Videos.getVideoAspectRatio (Demo.externals None) "/srv/assets/v1.mp4"
         Demo.world) = Ok "landscape".
Proof. vm_compute. reflexivity. Qed.

Example thumbnail_upload_trace :
  events_since Demo.world
    (snd (Thumbnails.handlerUploadThumbnail (Demo.externals None) Demo.cfg
            (Demo.upload "v1" "alice" "thumbnail" Demo.jpeg) Demo.world))
  = [EvGetBearerToken; EvValidateJWT; EvConsoleLog; EvFormData; EvArrayBuffer;
     EvGetVideo "v1"; EvRandomBytes;
     EvBunWrite ("/srv/assets/" +:+ Demo.name64 +:+ ".jpeg");
     EvUpdateVideo
       (set_thumbnailURL Demo.alice_video
          ("http://localhost:8091/assets/" +:+ Demo.name64 +:+ ".jpeg"))].
Proof. vm_compute. reflexivity. Qed.

(** *** Symbolic execution of a handler *)

Ltac unfold_m :=
  cbv [mbind mret M_bind M_ret bind ret throw emit lift await
       read_db read_disk read_thumbnails write_db write_disk write_bucket
       call_getBearerToken call_validateJWT call_getVideo call_updateVideo
       call_formData call_arrayBuffer call_randomBytes
       Bun_write Bun_spawn s3_write file_delete
       Videos.getVideoAspectRatio Videos.processVideoForFastStart] in *.

Ltac case_step :=
  match goal with
  | H : ?x = _ |- context [match ?x with _ => _ end] => rewrite H
  | |- context [match ?x with _ => _ end] =>
      lazymatch x with
      | context [match _ with _ => _ end] => fail
      | _ => destruct x eqn:?
      end
  end; simpl.

Lemma since_intro (w w' : World) (es : list Event) (P : list Event -> Prop) :
  trace w' = (trace w ++ es)%list -> P es -> P (events_since w w').
Proof.
  intros Heq HP. unfold events_since. rewrite Heq.
  by rewrite drop_app_length.
Qed.

Ltac trace_eq :=
  simpl; rewrite <- ?app_assoc; simpl; try reflexivity; by rewrite app_nil_r.

Ltac trace_goal :=
  match goal with
  | |- none_of _ (events_since ?w _) =>
      eapply (since_intro w); [trace_eq | reflexivity]
  end.

Ltac eqb_facts :=
  repeat match goal with
    | H : negb _ = true |- _ => apply negb_true_iff in H
    | H : negb _ = false |- _ => apply negb_false_iff in H
    | H : String.eqb _ _ = true |- _ => apply String.eqb_eq in H
    | H : String.eqb _ _ = false |- _ => apply String.eqb_neq in H
    end.

(** Open the gate hypotheses and confront them with the facts the
    execution has collected. *)
Ltac gates :=
  intros;
  repeat match goal with
    | H : names_video _ _ |- _ => destruct H as [? ?]
    | H : authenticated _ _ _ _ |- _ => destruct H as (? & ? & ?)
    | H : carries _ _ _ |- _ => destruct H as (? & ? & ?)
    end;
  eqb_facts; subst;
  repeat match goal with
    | H : ?a = ?a |- _ => clear H
    | H : Some _ = Some _ |- _ => injection H as H; subst
    | H : Ok _ = Ok _ |- _ => injection H as H; subst
    | H : FormFile _ = FormFile _ |- _ => injection H as H; subst
    | H1 : ?x = Some _, H2 : ?x = Some _ |- _ => rewrite H1 in H2
    | H1 : ?x = Ok _, H2 : ?x = Ok _ |- _ => rewrite H1 in H2
    | H1 : ?x = Ok _, H2 : ?x = Throw _ |- _ => rewrite H1 in H2; discriminate H2
    | H1 : ?x = Some _, H2 : ?x = None |- _ => rewrite H1 in H2; discriminate H2
    | H : Some _ = None |- _ => discriminate H
    | H : ?a <> ?a |- _ => destruct (H eq_refl)
    end; try reflexivity.

Lemma events_since_app (w w' : World) (es : list Event) :
  trace w' = (trace w ++ es)%list -> events_since w w' = es.
Proof.
  intros Heq. unfold events_since. rewrite Heq. apply drop_app_length.
Qed.

(** C10: a request without a video id is refused by each of the three
    handlers with [BadRequestError] and the world is returned as it was:
    no authentication, no lookup, no other effect has taken place. *)
Theorem missing_video_id_rejected
    (X : Externals) (cfg : ApiConfig) (req : Request) (w : World) :
  req_videoId req = None \/ req_videoId req = Some "" ->
  Thumbnails.handlerGetThumbnail cfg req w
    = (Throw (BadRequestError "Invalid video ID"), w) /\
  Thumbnails.handlerUploadThumbnail X cfg req w
    = (Throw (BadRequestError "Invalid video ID"), w) /\
  Videos.handlerUploadVideo X cfg req w
    = (Throw (BadRequestError "Invalid video ID"), w).
Proof.
  unfold Thumbnails.handlerGetThumbnail, Thumbnails.handlerUploadThumbnail,
    Videos.handlerUploadVideo.
  intros [Hid | Hid]; rewrite Hid; simpl; auto.
Qed.

Lemma missing_video_id_rejected_witness :
  Videos.handlerUploadVideo (Demo.externals None) Demo.cfg Demo.nameless_upload
    Demo.world
  = (Throw (BadRequestError "Invalid video ID"), Demo.world).
Proof.
  apply (missing_video_id_rejected (Demo.externals None) Demo.cfg
           Demo.nameless_upload Demo.world).
  right. reflexivity.
Defined.

(** C6: an upload whose declared size exceeds the ceiling (10 MiB for a
    thumbnail, 1 GiB for a video) always ends in failure with every store
    as it was and no disk or object-store write among its effects; once the
    request has passed the gates that precede validation the failure is the
    [BadRequestError] of the size check. *)
Theorem oversize_upload_rejected
    (X : Externals) (cfg : ApiConfig) (w : World)
    (reqT reqV : Request) (fT fV : File)
    (rT rV : Result Response) (wT wV : World) :
  carries reqT "thumbnail" fT -> 10 * 1024 * 1024 < file_size fT ->
  carries reqV "video" fV -> 1024 * 1024 * 1024 < file_size fV ->
  Thumbnails.handlerUploadThumbnail X cfg reqT w = (rT, wT) ->
  Videos.handlerUploadVideo X cfg reqV w = (rV, wV) ->
  (is_failure rT /\ same_stores w wT /\
   none_of is_storage_write (events_since w wT) /\
   (forall vid user, names_video reqT vid -> authenticated X cfg reqT user ->
      rT = Throw (BadRequestError "Thumbnail file size is greater than 10MB"))) /\
  (is_failure rV /\ same_stores w wV /\
   none_of is_storage_write (events_since w wV) /\
   (forall vid user v, names_video reqV vid -> authenticated X cfg reqV user ->
      getVideo (db w) vid = Some v -> userID v = user ->
      rV = Throw (BadRequestError "video file size is greater than 1GB"))).
Proof.
  intros (fdT & HformT & HgetT) HsizeT (fdV & HformV & HgetV) HsizeV HT HV.
  assert (HltT : (Thumbnails.MAX_UPLOAD_SIZE <? file_size fT) = true).
  { apply Z.ltb_lt. change Thumbnails.MAX_UPLOAD_SIZE with 10485760. lia. }
  assert (HltV : (Videos.MAX_UPLOAD_SIZE <? file_size fV) = true).
  { apply Z.ltb_lt. change Videos.MAX_UPLOAD_SIZE with 1073741824. lia. }
  split.
  - clear HV. revert HT. unfold Thumbnails.handlerUploadThumbnail. unfold_m.
    repeat case_step; intros [= <- <-]; unfold is_failure, same_stores;
      (split; [eauto|]); (split; [auto|]); (split; [trace_goal|]); gates.
  - clear HT. revert HV. unfold Videos.handlerUploadVideo. unfold_m.
    repeat case_step; intros [= <- <-]; unfold is_failure, same_stores;
      (split; [eauto|]); (split; [auto|]); (split; [trace_goal|]); gates.
Qed.

Lemma oversize_upload_rejected_witness :
  fst (Thumbnails.handlerUploadThumbnail (Demo.externals None) Demo.cfg
         (Demo.upload "v1" "alice" "thumbnail" Demo.huge_jpeg) Demo.world)
    = Throw (BadRequestError "Thumbnail file size is greater than 10MB") /\
  fst (Videos.handlerUploadVideo (Demo.externals None) Demo.cfg
         (Demo.upload "v1" "alice" "video" Demo.huge_mp4) Demo.world)
    = Throw (BadRequestError "video file size is greater than 1GB").
Proof.
  pose proof
    (oversize_upload_rejected (Demo.externals None) Demo.cfg Demo.world
       (Demo.upload "v1" "alice" "thumbnail" Demo.huge_jpeg)
       (Demo.upload "v1" "alice" "video" Demo.huge_mp4)
       Demo.huge_jpeg Demo.huge_mp4 _ _ _ _
       (ex_intro _ _ (conj eq_refl eq_refl)) eq_refl
       (ex_intro _ _ (conj eq_refl eq_refl)) eq_refl
       (surjective_pairing _) (surjective_pairing _))
    as [(_ & _ & _ & HT) (_ & _ & _ & HV)].
  split.
  - apply (HT "v1" "alice").
    + split; [reflexivity | discriminate].
    + exists "alice". split; reflexivity.
  - apply (HV "v1" "alice" Demo.alice_video).
    + split; [reflexivity | discriminate].
    + exists "alice". split; reflexivity.
    + reflexivity.
    + reflexivity.
Defined.

Lemma not_included (arr : list string) (s : string) :
  s ∉ arr -> negb (includes arr s) = true.
Proof.
  intros Hnot. unfold includes. by rewrite bool_decide_eq_false_2.
Qed.

(** C7: an upload whose declared media type is outside the whitelist
    ([image/jpeg], [image/png] for thumbnails, [video/mp4] for videos) ends
    in failure without a single process having been spawned; for a request
    that has passed the gates preceding validation the failure is a
    [BadRequestError]. *)
Theorem unlisted_media_type_rejected
    (X : Externals) (cfg : ApiConfig) (w : World)
    (reqT reqV : Request) (fT fV : File)
    (rT rV : Result Response) (wT wV : World) :
  carries reqT "thumbnail" fT -> file_type fT ∉ ["image/jpeg"; "image/png"] ->
  carries reqV "video" fV -> file_type fV ∉ ["video/mp4"] ->
  Thumbnails.handlerUploadThumbnail X cfg reqT w = (rT, wT) ->
  Videos.handlerUploadVideo X cfg reqV w = (rV, wV) ->
  (is_failure rT /\ none_of is_spawn (events_since w wT) /\
   (forall vid user, names_video reqT vid -> authenticated X cfg reqT user ->
      is_BadRequest rT)) /\
  (is_failure rV /\ none_of is_spawn (events_since w wV) /\
   (forall vid user v, names_video reqV vid -> authenticated X cfg reqV user ->
      getVideo (db w) vid = Some v -> userID v = user ->
      is_BadRequest rV)).
Proof.
  intros (fdT & HformT & HgetT) HtypeT (fdV & HformV & HgetV) HtypeV HT HV.
  apply not_included in HtypeT, HtypeV.
  split.
  - clear HV. revert HT. unfold Thumbnails.handlerUploadThumbnail. unfold_m.
    repeat case_step; intros [= <- <-]; unfold is_failure, is_BadRequest;
      (split; [eauto|]); (split; [trace_goal|]); gates; eauto.
  - clear HT. revert HV. unfold Videos.handlerUploadVideo. unfold_m.
    repeat case_step; intros [= <- <-]; unfold is_failure, is_BadRequest;
      (split; [eauto|]); (split; [trace_goal|]); gates; eauto.
Qed.

Lemma unlisted_media_type_rejected_witness :
  is_BadRequest
    (fst (Thumbnails.handlerUploadThumbnail (Demo.externals None) Demo.cfg
            (Demo.upload "v1" "alice" "thumbnail" Demo.gif) Demo.world)) /\
  is_BadRequest
    (fst (Videos.handlerUploadVideo (Demo.externals None) Demo.cfg
            (Demo.upload "v1" "alice" "video" Demo.webm) Demo.world)).
Proof.
  assert (HgT : file_type Demo.gif ∉ ["image/jpeg"; "image/png"]).
  { apply (bool_decide_unpack _). vm_compute. exact I. }
  assert (HgV : file_type Demo.webm ∉ ["video/mp4"]).
  { apply (bool_decide_unpack _). vm_compute. exact I. }
  pose proof
    (unlisted_media_type_rejected (Demo.externals None) Demo.cfg Demo.world
       (Demo.upload "v1" "alice" "thumbnail" Demo.gif)
       (Demo.upload "v1" "alice" "video" Demo.webm)
       Demo.gif Demo.webm _ _ _ _
       (ex_intro _ _ (conj eq_refl eq_refl)) HgT
       (ex_intro _ _ (conj eq_refl eq_refl)) HgV
       (surjective_pairing _) (surjective_pairing _))
    as [(_ & _ & HT) (_ & _ & HV)].
  split.
  - apply (HT "v1" "alice").
    + split; [reflexivity | discriminate].
    + exists "alice". split; reflexivity.
  - apply (HV "v1" "alice" Demo.alice_video).
    + split; [reflexivity | discriminate].
    + exists "alice". split; reflexivity.
    + reflexivity.
    + reflexivity.
Defined.

Lemma since_In (w w' : World) (es : list Event) (e : Event) :
  trace w' = (trace w ++ es)%list -> In e es -> In e (events_since w w').
Proof. intros Heq Hin. by rewrite (events_since_app _ _ _ Heq). Qed.

Ltac found_in_trace :=
  match goal with
  | |- In _ (events_since ?w _) =>
      eapply (since_In w); [trace_eq | simpl; tauto]
  end.

(** C9: the ceilings are 10 MiB and 1 GiB, and an upload whose declared
    size equals the ceiling passes the size check: the handler moves on to
    the media-type check, refusing an unlisted type with that check's own
    error and reading the bytes of a file of a listed type. *)
Theorem size_at_ceiling_accepted
    (X : Externals) (cfg : ApiConfig) (w : World)
    (reqT reqV : Request) (fT fV : File) (vidT vidV userT userV : string)
    (v : Video) (rT rV : Result Response) (wT wV : World) :
  names_video reqT vidT -> authenticated X cfg reqT userT ->
  carries reqT "thumbnail" fT -> file_size fT = 10 * 1024 * 1024 ->
  names_video reqV vidV -> authenticated X cfg reqV userV ->
  getVideo (db w) vidV = Some v -> userID v = userV ->
  carries reqV "video" fV -> file_size fV = 1024 * 1024 * 1024 ->
  Thumbnails.handlerUploadThumbnail X cfg reqT w = (rT, wT) ->
  Videos.handlerUploadVideo X cfg reqV w = (rV, wV) ->
  Thumbnails.MAX_UPLOAD_SIZE = 10 * 1024 * 1024 /\
  Videos.MAX_UPLOAD_SIZE = 1024 * 1024 * 1024 /\
  (if includes ["image/jpeg"; "image/png"] (file_type fT)
   then In EvArrayBuffer (events_since w wT)
   else rT = Throw (BadRequestError "Only JPEG and PNG files allowed!")) /\
  (if includes ["video/mp4"] (file_type fV)
   then In EvArrayBuffer (events_since w wV)
   else rV = Throw (BadRequestError "Only JPEG and PNG files allowed!")).
Proof.
  intros [HidT HneT] (tokT & HtokT & HjwtT) (fdT & HformT & HgetT) HsizeT
         [HidV HneV] (tokV & HtokV & HjwtV) Hrow Hown
         (fdV & HformV & HgetV) HsizeV HT HV.
  apply String.eqb_neq in HneT, HneV.
  assert (HltT : (Thumbnails.MAX_UPLOAD_SIZE <? file_size fT) = false).
  { apply Z.ltb_ge. change Thumbnails.MAX_UPLOAD_SIZE with 10485760. lia. }
  assert (HltV : (Videos.MAX_UPLOAD_SIZE <? file_size fV) = false).
  { apply Z.ltb_ge. change Videos.MAX_UPLOAD_SIZE with 1073741824. lia. }
  assert (Hmine : String.eqb (userID v) userV = true) by by apply String.eqb_eq.
  split; [reflexivity|]. split; [reflexivity|]. split.
  - clear HV. revert HT. unfold Thumbnails.handlerUploadThumbnail. unfold_m.
    rewrite HidT, HneT. simpl. rewrite HtokT. simpl. rewrite HjwtT. simpl.
    rewrite HformT. simpl. rewrite HgetT, HltT. simpl.
    destruct (includes _ (file_type fT)); simpl.
    + repeat case_step; intros [= <- <-]; found_in_trace.
    + by intros [= <- <-].
  - clear HT. revert HV. unfold Videos.handlerUploadVideo. unfold_m.
    rewrite HidV, HneV. simpl. rewrite HtokV. simpl. rewrite HjwtV. simpl.
    rewrite Hrow. simpl. rewrite Hmine. simpl.
    rewrite HformV. simpl. rewrite HgetV, HltV. simpl.
    destruct (includes _ (file_type fV)); simpl.
    + repeat case_step; intros [= <- <-]; found_in_trace.
    + by intros [= <- <-].
Qed.

Lemma size_at_ceiling_accepted_witness :
  In EvArrayBuffer
    (events_since Demo.world
       (snd (Thumbnails.handlerUploadThumbnail (Demo.externals None) Demo.cfg
               (Demo.upload "v1" "alice" "thumbnail" Demo.full_jpeg) Demo.world))) /\
  In EvArrayBuffer
    (events_since Demo.world
       (snd (Videos.handlerUploadVideo (Demo.externals None) Demo.cfg
               (Demo.upload "v1" "alice" "video" Demo.full_mp4) Demo.world))).
Proof.
  pose proof
    (size_at_ceiling_accepted (Demo.externals None) Demo.cfg Demo.world
       (Demo.upload "v1" "alice" "thumbnail" Demo.full_jpeg)
       (Demo.upload "v1" "alice" "video" Demo.full_mp4)
       Demo.full_jpeg Demo.full_mp4 "v1" "v1" "alice" "alice"
       Demo.alice_video _ _ _ _
       (conj eq_refl (fun H => eq_ind "v1" (fun s => if String.eqb s "" then False else True) I "" H))
       (ex_intro _ "alice" (conj eq_refl eq_refl))
       (ex_intro _ _ (conj eq_refl eq_refl)) eq_refl
       (conj eq_refl (fun H => eq_ind "v1" (fun s => if String.eqb s "" then False else True) I "" H))
       (ex_intro _ "alice" (conj eq_refl eq_refl))
       eq_refl eq_refl
       (ex_intro _ _ (conj eq_refl eq_refl)) eq_refl
       (surjective_pairing _) (surjective_pairing _))
    as (_ & _ & HT & HV).
  split; [exact HT | exact HV].
Defined.

(** *** The database table and a successful thumbnail upload *)

Lemma getVideo_id (d : list Video) (i : string) (v : Video) :
  getVideo d i = Some v -> id v = i.
Proof.
  unfold getVideo. intros Hfind. apply find_some in Hfind as [_ Heq].
  by apply String.eqb_eq.
Qed.

Lemma getVideo_updateVideo (d : list Video) (i : string) (v0 v : Video) :
  getVideo d i = Some v0 -> id v = i ->
  getVideo (updateVideo d v) i = Some v.
Proof.
  unfold getVideo, updateVideo. intros Hfind <-.
  induction d as [|r d IH]; simpl in *; [discriminate|].
  destruct (String.eqb (id r) (id v)) eqn:Hr.
  - by rewrite String.eqb_refl.
  - rewrite Hr. auto.
Qed.

(** What a successful thumbnail upload has done. *)
Lemma thumbnail_upload_success
    (X : Externals) (cfg : ApiConfig) (req : Request) (vid : string)
    (f : File) (w w' : World) (resp : Response) :
  names_video req vid -> carries req "thumbnail" f ->
  Thumbnails.handlerUploadThumbnail X cfg req w = (Ok resp, w') ->
  exists v,
    getVideo (db w) vid = Some v /\
    let file := to_base64url (randomBytes X 32) +:+ "."
                  +:+ interpolate (split_on "/" (file_type f) !! 1%nat) in
    let v' := set_thumbnailURL v
                ("http://localhost:" +:+ port cfg +:+ "/assets/" +:+ file) in
    resp = respondWithJSON 200 v' /\
    db w' = updateVideo (db w) v' /\
    videoThumbnails w' = videoThumbnails w /\
    bucket w' = bucket w /\
    disk w' = match bunWriteError X (path_join X (assetsRoot cfg) file) with
              | Some _ => disk w
              | None => <[path_join X (assetsRoot cfg) file := file_bytes f]> (disk w)
              end.
Proof.
  intros [Hid Hne] (fd & Hform & Hget).
  apply String.eqb_neq in Hne.
  unfold Thumbnails.handlerUploadThumbnail. unfold_m.
  rewrite Hid, Hne.
  repeat case_step; intros [= <- <-]; eexists; (split; [reflexivity|]); simpl.
  all: by repeat split.
Qed.

(** *** The record update and the storage write (C1) *)

(** Whenever the disk refuses the write, a thumbnail upload that answers
    with success has left a record whose URL names a file the disk does
    not hold. *)
Lemma thumbnail_url_without_file
    (X : Externals) (cfg : ApiConfig) (req : Request) (vid : string)
    (f : File) (w w' : World) (resp : Response) (e : Err) :
  names_video req vid -> carries req "thumbnail" f ->
  bunWriteError X
    (path_join X (assetsRoot cfg)
       (to_base64url (randomBytes X 32) +:+ "."
          +:+ interpolate (split_on "/" (file_type f) !! 1%nat))) = Some e ->
  disk w !! path_join X (assetsRoot cfg)
              (to_base64url (randomBytes X 32) +:+ "."
                 +:+ interpolate (split_on "/" (file_type f) !! 1%nat)) = None ->
  Thumbnails.handlerUploadThumbnail X cfg req w = (Ok resp, w') ->
  dangling_thumbnail w' vid
    ("http://localhost:" +:+ port cfg +:+ "/assets/"
       +:+ to_base64url (randomBytes X 32) +:+ "."
       +:+ interpolate (split_on "/" (file_type f) !! 1%nat))
    (path_join X (assetsRoot cfg)
       (to_base64url (randomBytes X 32) +:+ "."
          +:+ interpolate (split_on "/" (file_type f) !! 1%nat))).
Proof.
  intros Hreq Hfile Hfail Hfree Hrun.
  destruct (thumbnail_upload_success _ _ _ _ _ _ _ _ Hreq Hfile Hrun)
    as (v & Hrow & _ & Hdb & _ & _ & Hdisk).
  cbv zeta in Hdb, Hdisk. rewrite Hfail in Hdisk.
  split.
  - eexists (set_thumbnailURL v _). split; [|reflexivity].
    rewrite Hdb. apply (getVideo_updateVideo _ _ v); [exact Hrow|].
    apply (getVideo_id _ _ _ Hrow).
  - by rewrite Hdisk.
Qed.

(** C1, at a failing input: the disk refuses the write of an otherwise
    valid thumbnail upload.  The handler has dropped the promise of
    [Bun.write], so it still answers 200 and persists a [thumbnailURL]
    that names a file the disk does not hold. *)
Theorem thumbnail_url_persisted_after_failed_write :
  let run := Thumbnails.handlerUploadThumbnail Demo.full_disk Demo.cfg
               (Demo.upload "v1" "alice" "thumbnail" Demo.jpeg) Demo.world in
  (exists resp, fst run = Ok resp /\ status resp = 200) /\
  bunWriteError Demo.full_disk ("/srv/assets/" +:+ Demo.name64 +:+ ".jpeg")
    = Some (Error "ENOSPC") /\
  dangling_thumbnail (snd run) "v1"
    ("http://localhost:8091/assets/" +:+ Demo.name64 +:+ ".jpeg")
    ("/srv/assets/" +:+ Demo.name64 +:+ ".jpeg").
Proof.
  split; [eexists; split; vm_compute; reflexivity|].
  split; [reflexivity|].
  split; [eexists; split; vm_compute; reflexivity|].
  vm_compute. reflexivity.
Qed.

Ltac events_in H :=
  match type of H with
  | In _ (events_since ?w _) =>
      erewrite (events_since_app w) in H by trace_eq;
      simpl in H; intuition (try discriminate)
  end.

(** X4: the video pipeline awaits the object-store write: whenever it
    persists a record, the URL of that record names an object the bucket
    holds. *)
Lemma video_url_persisted_after_store
    (X : Externals) (cfg : ApiConfig) (req : Request) (w w' : World)
    (r : Result Response) (v : Video) :
  Videos.handlerUploadVideo X cfg req w = (r, w') ->
  In (EvUpdateVideo v) (events_since w w') ->
  exists key obj,
    videoURL v = Some (s3CfDistribution cfg +:+ "/" +:+ key) /\
    bucket w' !! key = Some obj /\
    s3WriteError X key = None.
Proof.
  unfold Videos.handlerUploadVideo. unfold_m.
  repeat case_step; intros [= <- <-] Hin; events_in Hin.
  all: match goal with H : EvUpdateVideo _ = EvUpdateVideo _ |- _ =>
         injection H as <- end.
  all: eexists _, _; simpl; split; [reflexivity|];
    split; [apply lookup_insert_eq | assumption].
Qed.

(** *** Ownership (C3) and the order of the checks (C4) *)

(** X1: the video pipeline refuses every upload by a user who does not own
    the record with [UserForbiddenError], before the form is parsed and
    with every store as it was. *)
Lemma video_non_owner_forbidden
    (X : Externals) (cfg : ApiConfig) (req : Request) (w w' : World)
    (r : Result Response) (vid user : string) (v : Video) :
  names_video req vid -> authenticated X cfg req user ->
  getVideo (db w) vid = Some v -> userID v <> user ->
  Videos.handlerUploadVideo X cfg req w = (r, w') ->
  r = Throw (UserForbiddenError "Editing video not allowed.") /\
  same_stores w w' /\
  none_of touches_file (events_since w w').
Proof.
  intros [Hid Hne] (token & Htok & Hjwt) Hrow Hown.
  apply String.eqb_neq in Hne, Hown.
  unfold Videos.handlerUploadVideo. unfold_m.
  rewrite Hid, Hne. simpl. rewrite Htok. simpl. rewrite Hjwt. simpl.
  rewrite Hrow. simpl. rewrite Hown. simpl.
  intros [= <- <-]. split; [reflexivity|]. split; [by unfold same_stores|].
  trace_goal.
Qed.

(** X2: the thumbnail pipeline never mutates anything for a user who does
    not own the record, and never answers with success; the error it
    answers with depends on the submitted file. *)
Lemma thumbnail_non_owner_fails
    (X : Externals) (cfg : ApiConfig) (req : Request) (w w' : World)
    (r : Result Response) (vid user : string) (v : Video) :
  names_video req vid -> authenticated X cfg req user ->
  getVideo (db w) vid = Some v -> userID v <> user ->
  Thumbnails.handlerUploadThumbnail X cfg req w = (r, w') ->
  is_failure r /\ same_stores w w'.
Proof.
  intros [Hid Hne] (token & Htok & Hjwt) Hrow Hown.
  apply String.eqb_neq in Hne, Hown.
  assert (Hnot : negb (String.eqb (userID v) user) = true) by by rewrite Hown.
  unfold Thumbnails.handlerUploadThumbnail. unfold_m.
  rewrite Hid, Hne. simpl. rewrite Htok. simpl. rewrite Hjwt. simpl.
  repeat case_step; intros [= <- <-]; split;
    solve [ unfold is_failure; eauto | by unfold same_stores ].
Qed.

(** C3, at a failing input: bob, who does not own alice's record, submits
    a thumbnail above the size ceiling.  The handler validates the file
    before it looks at the owner and answers with [BadRequestError], not
    with [UserForbiddenError]. *)
Theorem thumbnail_non_owner_gets_bad_request :
  getVideo (db Demo.world) "v1" = Some Demo.alice_video /\
  userID Demo.alice_video <> "bob" /\
  authenticated (Demo.externals None) Demo.cfg
    (Demo.upload "v1" "bob" "thumbnail" Demo.huge_jpeg) "bob" /\
  fst (Thumbnails.handlerUploadThumbnail (Demo.externals None) Demo.cfg
         (Demo.upload "v1" "bob" "thumbnail" Demo.huge_jpeg) Demo.world)
    = Throw (BadRequestError "Thumbnail file size is greater than 10MB").
Proof.
  split; [reflexivity|]. split; [discriminate|].
  split; [exists "bob"; split; reflexivity|].
  vm_compute. reflexivity.
Qed.

(** X3: in the video pipeline the form is parsed only for a request that
    has passed the record lookup and the ownership check. *)
Lemma video_checks_precede_file
    (X : Externals) (cfg : ApiConfig) (req : Request) (w w' : World)
    (r : Result Response) (e : Event) :
  Videos.handlerUploadVideo X cfg req w = (r, w') ->
  In e (events_since w w') -> touches_file e = true ->
  exists vid user v,
    names_video req vid /\ authenticated X cfg req user /\
    getVideo (db w) vid = Some v /\ userID v = user.
Proof.
  unfold Videos.handlerUploadVideo. unfold_m.
  destruct (req_videoId req) as [vid|] eqn:Hid; simpl;
    [destruct (String.eqb vid "") eqn:Hne; simpl|].
  2: destruct (getBearerToken X (req_headers req)) as [token|] eqn:Htok; simpl.
  2: destruct (validateJWT X token (jwtSecret cfg)) as [user|] eqn:Hjwt; simpl.
  2: destruct (getVideo (db w) vid) as [v|] eqn:Hrow; simpl.
  2: destruct (String.eqb (userID v) user) eqn:Hown; simpl.
  2:{ intros _ _ _. exists vid, user, v. eqb_facts.
      repeat split; eauto. exists token. auto. }
  all: intros [= <- <-] Hin Htouch; events_in Hin; subst; discriminate.
Qed.

(** C4, at a failing input: alice submits a JPEG thumbnail for a video
    that does not exist.  The handler parses the form, validates the file
    and reads its bytes, and only then looks the record up and answers
    with [NotFoundError]. *)
Theorem thumbnail_file_read_before_record_checks :
  getVideo (db Demo.world) "v404" = None /\
  Thumbnails.handlerUploadThumbnail (Demo.externals None) Demo.cfg
    (Demo.upload "v404" "alice" "thumbnail" Demo.jpeg) Demo.world
  = (Throw (NotFoundError "Couldn't find video"),
     with_trace Demo.world
       [EvGetBearerToken; EvValidateJWT; EvConsoleLog; EvFormData;
        EvArrayBuffer; EvGetVideo "v404"]).
Proof. split; vm_compute; reflexivity. Qed.

(** *** Temporary files of the video pipeline (C8) *)

(** X5: a video upload that answers with success has deleted the
    processed copy it uploaded. *)
Lemma processed_copy_deleted
    (X : Externals) (cfg : ApiConfig) (req : Request) (w w' : World)
    (resp : Response) :
  Videos.handlerUploadVideo X cfg req w = (Ok resp, w') ->
  exists filePath key,
    In (EvS3Write key) (events_since w w') /\
    In (EvDelete (filePath +:+ ".processed")) (events_since w w') /\
    disk w' !! (filePath +:+ ".processed") = None.
Proof.
  unfold Videos.handlerUploadVideo. unfold_m.
  repeat case_step; intros [= <- <-]; eexists _, _.
  all: split; [found_in_trace|]; split; [found_in_trace|].
  all: simpl; apply lookup_delete_eq.
Qed.

(** C8, at a failing input: a video upload that succeeds.  The processed
    copy is gone from the disk, but the original the handler wrote under
    the assets root is still there: nothing ever deletes it. *)
Theorem original_upload_left_on_disk :
  let run := Videos.handlerUploadVideo (Demo.externals None) Demo.cfg
               (Demo.upload "v1" "alice" "video" Demo.mp4) Demo.world in
  (exists resp, fst run = Ok resp /\ status resp = 200) /\
  bucket (snd run) !! ("landscape/" +:+ Demo.name16 +:+ ".mp4")
    = Some (mkS3Object (file_bytes Demo.mp4) "video/mp4") /\
  disk Demo.world !! "/srv/assets/v1.mp4" = None /\
  disk (snd run) !! "/srv/assets/v1.mp4.processed" = None /\
  disk (snd run) !! "/srv/assets/v1.mp4" = Some (file_bytes Demo.mp4) /\
  none_of (fun e => match e with
                    | EvDelete "/srv/assets/v1.mp4" => true
                    | _ => false
                    end) (events_since Demo.world (snd run)).
Proof.
  split; [eexists; split; vm_compute; reflexivity|].
  repeat split; vm_compute; reflexivity.
Qed.

(** *** Fetching a thumbnail after its upload (C2) *)

(** C2, counterexample: on the example world alice uploads a JPEG
    thumbnail for her video and the upload succeeds, yet fetching the
    thumbnail of that video fails. *)
Lemma thumbnail_round_trip_fails :
  ~ thumbnail_round_trip (Demo.externals None) Demo.cfg
      (Demo.upload "v1" "alice" "thumbnail" Demo.jpeg) (Demo.fetch "v1")
      "v1" Demo.jpeg Demo.world.
Proof.
  intros Hrt.
  pose proof (surjective_pairing
                (Thumbnails.handlerUploadThumbnail (Demo.externals None) Demo.cfg
                   (Demo.upload "v1" "alice" "thumbnail" Demo.jpeg) Demo.world))
    as Hrun.
  assert (Hfst :
    fst (Thumbnails.handlerUploadThumbnail (Demo.externals None) Demo.cfg
           (Demo.upload "v1" "alice" "thumbnail" Demo.jpeg) Demo.world)
    = Ok (respondWithJSON 200
            (set_thumbnailURL Demo.alice_video
               ("http://localhost:8091/assets/" +:+ Demo.name64 +:+ ".jpeg"))))
    by (vm_compute; reflexivity).
  rewrite Hfst in Hrun.
  unfold thumbnail_round_trip in Hrt.
  assert (H1 : names_video (Demo.upload "v1" "alice" "thumbnail" Demo.jpeg) "v1")
    by (split; [reflexivity | discriminate]).
  assert (H2 : names_video (Demo.fetch "v1") "v1")
    by (split; [reflexivity | discriminate]).
  assert (H3 : carries (Demo.upload "v1" "alice" "thumbnail" Demo.jpeg)
                 "thumbnail" Demo.jpeg)
    by (eexists; split; reflexivity).
  specialize (Hrt H1 H2 H3 eq_refl _ _ Hrun).
  destruct Hrt as (got & Hgot & _).
  vm_compute in Hgot. discriminate Hgot.
Qed.

(** C2, amended: a successful upload of a JPEG thumbnail for [vid] leaves
    the in-memory thumbnail map as it was, so fetching the thumbnail of
    [vid] afterwards answers from the entry the map held before the upload
    and fails with [NotFoundError] when it held none; the record of [vid]
    now carries the URL of the asset [<name>.jpeg], and the disk holds the
    uploaded bytes under that name in the assets root once the write
    succeeds. *)
Theorem thumbnail_upload_bypasses_map
    (X : Externals) (cfg : ApiConfig) (req greq : Request) (vid : string)
    (f : File) (w w' : World) (resp : Response) :
  names_video req vid -> names_video greq vid ->
  carries req "thumbnail" f -> file_type f = "image/jpeg" ->
  Thumbnails.handlerUploadThumbnail X cfg req w = (Ok resp, w') ->
  videoThumbnails w' = videoThumbnails w /\
  fst (Thumbnails.handlerGetThumbnail cfg greq w')
    = match videoThumbnails w !! vid with
      | Some t =>
          Ok (newResponse (data t)
                [("Content-Type", mediaType t); ("Cache-Control", "no-store")])
      | None => Throw (NotFoundError "Thumbnail not found")
      end /\
  (exists v,
     getVideo (db w') vid = Some v /\
     thumbnailURL v
       = Some ("http://localhost:" +:+ port cfg +:+ "/assets/"
                 +:+ to_base64url (randomBytes X 32) +:+ ".jpeg")) /\
  (bunWriteError X
     (path_join X (assetsRoot cfg)
        (to_base64url (randomBytes X 32) +:+ ".jpeg")) = None ->
   disk w' !! path_join X (assetsRoot cfg)
                (to_base64url (randomBytes X 32) +:+ ".jpeg")
     = Some (file_bytes f)).
Proof.
  intros Hreq [Hgid Hne] Hfile Htype Hrun.
  destruct (thumbnail_upload_success _ _ _ _ _ _ _ _ Hreq Hfile Hrun)
    as (v & Hrow & _ & Hdb & Hmap & _ & Hdisk).
  rewrite Htype in Hdb, Hdisk.
  change (interpolate (split_on "/" "image/jpeg" !! 1%nat)) with "jpeg" in Hdb, Hdisk.
  pose proof (getVideo_id _ _ _ Hrow) as Hv.
  assert (Hrow' :
    getVideo (db w') vid
    = Some (set_thumbnailURL v
              ("http://localhost:" +:+ port cfg +:+ "/assets/"
                 +:+ to_base64url (randomBytes X 32) +:+ ".jpeg"))).
  { rewrite Hdb. by apply (getVideo_updateVideo _ _ v). }
  split; [exact Hmap|]. split.
  - apply String.eqb_neq in Hne.
    unfold Thumbnails.handlerGetThumbnail. unfold_m.
    rewrite Hgid, Hne. simpl. rewrite Hrow'. simpl. rewrite Hmap.
    by destruct (videoThumbnails w !! vid).
  - split; [eexists; split; [exact Hrow' | reflexivity]|].
    intros Hok.
    change (bunWriteError X
              (path_join X (assetsRoot cfg)
                 (to_base64url (randomBytes X 32) +:+ "." +:+ "jpeg")) = None)
      in Hok.
    rewrite Hok in Hdisk. rewrite Hdisk. apply lookup_insert_eq.
Qed.

Lemma thumbnail_upload_bypasses_map_witness :
  fst (Thumbnails.handlerGetThumbnail Demo.cfg (Demo.fetch "v1")
         (snd (Thumbnails.handlerUploadThumbnail (Demo.externals None) Demo.cfg
                 (Demo.upload "v1" "alice" "thumbnail" Demo.jpeg) Demo.world)))
    = Throw (NotFoundError "Thumbnail not found") /\
  disk (snd (Thumbnails.handlerUploadThumbnail (Demo.externals None) Demo.cfg
               (Demo.upload "v1" "alice" "thumbnail" Demo.jpeg) Demo.world))
    !! ("/srv/assets/" +:+ Demo.name64 +:+ ".jpeg")
    = Some (file_bytes Demo.jpeg).
Proof.
  pose proof (surjective_pairing
                (Thumbnails.handlerUploadThumbnail (Demo.externals None) Demo.cfg
                   (Demo.upload "v1" "alice" "thumbnail" Demo.jpeg) Demo.world))
    as Hrun.
  assert (Hfst :
    fst (Thumbnails.handlerUploadThumbnail (Demo.externals None) Demo.cfg
           (Demo.upload "v1" "alice" "thumbnail" Demo.jpeg) Demo.world)
    = Ok (respondWithJSON 200
            (set_thumbnailURL Demo.alice_video
               ("http://localhost:8091/assets/" +:+ Demo.name64 +:+ ".jpeg"))))
    by (vm_compute; reflexivity).
  rewrite Hfst in Hrun.
  assert (H1 : names_video (Demo.upload "v1" "alice" "thumbnail" Demo.jpeg) "v1")
    by (split; [reflexivity | discriminate]).
  assert (H2 : names_video (Demo.fetch "v1") "v1")
    by (split; [reflexivity | discriminate]).
  assert (H3 : carries (Demo.upload "v1" "alice" "thumbnail" Demo.jpeg)
                 "thumbnail" Demo.jpeg)
    by (eexists; split; reflexivity).
  destruct (thumbnail_upload_bypasses_map (Demo.externals None) Demo.cfg
              _ _ "v1" Demo.jpeg Demo.world _ _ H1 H2 H3 eq_refl Hrun)
    as (_ & Hget & _ & Hdisk).
  split.
  - exact Hget.
  - apply Hdisk. reflexivity.
Defined.

(** *** Aspect classification (C5) *)

(** The classification runs on IEEE doubles.  The lemmas below follow a
    dimension through the conversion, the division by nine, the
    multiplication by sixteen and [Math.floor], and show that for
    dimensions that fit 32-bit integers nothing is lost to rounding. *)

Section DoubleArithmetic.

Import JsNumber.

Lemma digits2_pos_bounds (p : positive) :
  2 ^ (Z.pos (digits2_pos p) - 1) <= Z.pos p < 2 ^ Z.pos (digits2_pos p).
Proof.
  induction p as [p IH | p IH |]; cbn [digits2_pos].
  - rewrite Pos2Z.inj_succ, (Pos2Z.inj_xI p).
    replace (Z.succ (Z.pos (digits2_pos p)) - 1)
      with (Z.succ (Z.pos (digits2_pos p) - 1)) by lia.
    rewrite !Z.pow_succ_r by lia.
    revert IH. generalize (2 ^ (Z.pos (digits2_pos p) - 1)).
    generalize (2 ^ Z.pos (digits2_pos p)). lia.
  - rewrite Pos2Z.inj_succ, (Pos2Z.inj_xO p).
    replace (Z.succ (Z.pos (digits2_pos p)) - 1)
      with (Z.succ (Z.pos (digits2_pos p) - 1)) by lia.
    rewrite !Z.pow_succ_r by lia.
    revert IH. generalize (2 ^ (Z.pos (digits2_pos p) - 1)).
    generalize (2 ^ Z.pos (digits2_pos p)). lia.
  - simpl. lia.
Qed.

Lemma digits2_pos_unique (p : positive) (d : Z) :
  2 ^ (d - 1) <= Z.pos p < 2 ^ d -> Z.pos (digits2_pos p) = d.
Proof.
  intros [Hlo Hhi]. pose proof (digits2_pos_bounds p) as [Hlo' Hhi'].
  destruct (Z.lt_trichotomy (Z.pos (digits2_pos p)) d) as [Hlt | [Heq | Hgt]];
    [exfalso | exact Heq | exfalso].
  - assert (2 ^ Z.pos (digits2_pos p) <= 2 ^ (d - 1))
      by (apply Z.pow_le_mono_r; lia).
    lia.
  - destruct (Z.le_gt_cases 0 d) as [Hd | Hd].
    + assert (2 ^ d <= 2 ^ (Z.pos (digits2_pos p) - 1))
        by (apply Z.pow_le_mono_r; lia).
      lia.
    + rewrite (Z.pow_neg_r 2 d) in Hhi by lia. lia.
Qed.

Lemma iter_xO_mul (p k : positive) :
  Z.pos (Pos.iter xO p k) = Z.pos p * 2 ^ Z.pos k.
Proof.
  induction k as [|k IH] using Pos.peano_ind.
  - simpl. lia.
  - rewrite Pos.iter_succ, (Pos2Z.inj_xO (Pos.iter xO p k)), IH,
      Pos2Z.inj_succ, Z.pow_succ_r; lia.
Qed.

(** Rounding a mantissa that already has 53 digits changes nothing. *)
Lemma round_exact_53 (s : bool) (m : positive) (e : Z) :
  Z.pos (digits2_pos m) = 53 -> -1074 <= e <= 971 ->
  binary_round_aux prec emax s (Z.pos m) e loc_Exact = S754_finite s m e.
Proof.
  intros Hd He.
  unfold binary_round_aux, shr_fexp, Zdigits2. cbn [shr_record_of_loc].
  rewrite Hd.
  replace (fexp prec emax (53 + e) - e) with 0
    by (unfold fexp, emin, prec, emax; lia).
  cbn [shr shr_m loc_of_shr_record round_nearest_even Zdigits2 shr_record_of_loc].
  rewrite Hd.
  replace (fexp prec emax (53 + e) - e) with 0
    by (unfold fexp, emin, prec, emax; lia).
  cbn [shr shr_m].
  replace (e <=? emax - prec) with true
    by (symmetry; apply Z.leb_le; unfold emax, prec; lia).
  reflexivity.
Qed.

Lemma of_Z_pos (h : Z) :
  0 < h < 2 ^ 53 ->
  of_Z h = S754_finite false (Z.to_pos (h * 2 ^ (52 - Z.log2 h)))
             (Z.log2 h - 52).
Proof.
  intros Hh. destruct h as [|p|p]; try lia.
  pose proof (Z.log2_spec (Z.pos p) ltac:(lia)) as Hlog.
  assert (Hdig : Z.pos (digits2_pos p) = Z.log2 (Z.pos p) + 1).
  { apply digits2_pos_unique.
    replace (Z.log2 (Z.pos p) + 1 - 1) with (Z.log2 (Z.pos p)) by lia.
    rewrite Z.add_1_r. exact Hlog. }
  assert (Hl53 : Z.log2 (Z.pos p) < 53).
  { apply Z.log2_lt_pow2; lia. }
  pose proof (Z.log2_nonneg (Z.pos p)) as Hl0.
  set (l := Z.log2 (Z.pos p)) in *.
  unfold of_Z, binary_normalize, binary_round.
  rewrite Hdig.
  replace (fexp prec emax (l + 1 + 0)) with (l - 52)
    by (unfold fexp, emin, prec, emax; lia).
  unfold shl_align.
  destruct (l - 52 - 0) as [|k|k] eqn:Hk; try lia.
  - assert (l = 52) as -> by lia.
    rewrite round_exact_53 by (rewrite ?Hdig; lia).
    f_equal. simpl. lia.
  - assert (Hm : Z.pos (Pos.iter xO p k) = Z.pos p * 2 ^ (52 - l)).
    { rewrite iter_xO_mul. f_equal. f_equal. lia. }
    rewrite round_exact_53.
    + f_equal. rewrite <- Hm. reflexivity.
    + apply digits2_pos_unique. rewrite Hm.
      assert (H52 : 2 ^ (53 - 1) = 2 ^ l * 2 ^ (52 - l))
        by (rewrite <- Z.pow_add_r by lia; f_equal; lia).
      assert (H53 : 2 ^ 53 = 2 ^ Z.succ l * 2 ^ (52 - l))
        by (rewrite <- Z.pow_add_r by lia; f_equal; lia).
      rewrite H52, H53.
      assert (HN : 0 < 2 ^ (52 - l)) by (apply Z.pow_pos_nonneg; lia).
      revert HN Hlog. generalize (2 ^ (52 - l)), (2 ^ l), (2 ^ Z.succ l).
      intros; nia.
    + lia.
Qed.

Lemma loc_of_shr_record_of_loc (m : Z) (l : location) :
  loc_of_shr_record (shr_record_of_loc m l) = l.
Proof. destruct l as [|[]]; reflexivity. Qed.

Lemma shr_m_of_loc (m : Z) (l : location) :
  shr_m (shr_record_of_loc m l) = m.
Proof. destruct l as [|[]]; reflexivity. Qed.

Lemma round_nearest_even_bounds (m : Z) (l : location) :
  m <= round_nearest_even m l <= m + 1.
Proof.
  destruct l as [|[]]; simpl; try lia. destruct (Z.even m); lia.
Qed.

Lemma shr_1_halves (m : positive) (l : location) :
  shr_m (shr_1 (shr_record_of_loc (Z.pos m) l)) = Z.pos m / 2.
Proof.
  destruct l as [|[]]; destruct m as [p|p|]; cbn [shr_1 shr_record_of_loc shr_m];
    try reflexivity.
  all: first [ rewrite (Pos2Z.inj_xI p) | rewrite (Pos2Z.inj_xO p) ];
    Z.to_euclidean_division_equations; lia.
Qed.

Lemma no_shift (e : Z) :
  -1074 <= e -> fexp prec emax (53 + e) - e = 0.
Proof. unfold fexp, emin, prec, emax. lia. Qed.

Lemma fits (e : Z) : e <= 971 -> (e <=? emax - prec) = true.
Proof. intros He. apply Z.leb_le. unfold emax, prec. lia. Qed.

(** Rounding a 53-digit mantissa with a remainder. *)
Lemma round_53 (s : bool) (m : positive) (e : Z) (l : location) :
  2 ^ 52 <= Z.pos m < 2 ^ 53 -> -1074 <= e <= 971 ->
  round_nearest_even (Z.pos m) l < 2 ^ 53 ->
  binary_round_aux prec emax s (Z.pos m) e l
  = S754_finite s (Z.to_pos (round_nearest_even (Z.pos m) l)) e.
Proof.
  intros Hm He Hr.
  assert (Hd : Z.pos (digits2_pos m) = 53) by (apply digits2_pos_unique; lia).
  unfold binary_round_aux, shr_fexp. unfold Zdigits2 at 1. rewrite Hd.
  rewrite no_shift by lia. cbn [shr].
  rewrite loc_of_shr_record_of_loc, shr_m_of_loc.
  pose proof (round_nearest_even_bounds (Z.pos m) l) as Hb.
  destruct (round_nearest_even (Z.pos m) l) as [|m1|m1] eqn:Hm1; try lia.
  assert (Hd1 : Z.pos (digits2_pos m1) = 53) by (apply digits2_pos_unique; lia).
  cbn [Zdigits2]. rewrite Hd1, no_shift by lia.
  cbn [shr shr_record_of_loc shr_m]. rewrite fits by lia. reflexivity.
Qed.

(** Rounding a 54-digit mantissa: one bit is shifted out first. *)
Lemma round_54 (s : bool) (m : positive) (e : Z) (l : location) :
  2 ^ 53 <= Z.pos m < 2 ^ 54 - 2 -> -1074 <= e <= 970 ->
  exists m1 : positive,
    binary_round_aux prec emax s (Z.pos m) e l = S754_finite s m1 (e + 1) /\
    Z.pos m / 2 <= Z.pos m1 <= Z.pos m / 2 + 1.
Proof.
  intros Hm He.
  assert (Hd : Z.pos (digits2_pos m) = 54) by (apply digits2_pos_unique; lia).
  unfold binary_round_aux, shr_fexp. unfold Zdigits2 at 1. rewrite Hd.
  replace (fexp prec emax (54 + e) - e) with 1
    by (unfold fexp, emin, prec, emax; lia).
  cbn [shr SpecFloat.iter_pos].
  pose proof (shr_1_halves m l) as Hhalf.
  pose proof (round_nearest_even_bounds
                (shr_m (shr_1 (shr_record_of_loc (Z.pos m) l)))
                (loc_of_shr_record (shr_1 (shr_record_of_loc (Z.pos m) l))))
    as Hb.
  rewrite Hhalf in Hb. rewrite Hhalf.
  assert (Hq : 2 * (Z.pos m / 2) <= Z.pos m <= 2 * (Z.pos m / 2) + 1)
    by (Z.to_euclidean_division_equations; lia).
  destruct (round_nearest_even _ _) as [|m1|m1] eqn:Hm1; try lia.
  assert (Hd1 : Z.pos (digits2_pos m1) = 53) by (apply digits2_pos_unique; lia).
  cbn [Zdigits2]. rewrite Hd1.
  replace (fexp prec emax (53 + (e + 1)) - (e + 1)) with 0
    by (unfold fexp, emin, prec, emax; lia).
  cbn [shr shr_record_of_loc shr_m]. rewrite fits by lia.
  exists m1. split; [reflexivity | lia].
Qed.

Lemma div_eucl_pair (a b : Z) : Z.div_eucl a b = (a / b, a mod b).
Proof. unfold Z.div, Z.modulo. by destruct (Z.div_eucl a b). Qed.

(** Dividing a normal double by nine. *)
Lemma div_by_9 (m : positive) (e : Z) :
  2 ^ 52 <= Z.pos m < 2 ^ 53 -> -1000 <= e <= 900 ->
  exists (m1 : positive) (e1 : Z),
    div (S754_finite false m e) (of_Z 9) = S754_finite false m1 e1 /\
    2 ^ 52 <= Z.pos m1 < 2 ^ 53 /\
    ((e1 = e - 4 /\
      Z.pos m * 2 ^ 53 / (9 * 2 ^ 49) <= Z.pos m1
        <= Z.pos m * 2 ^ 53 / (9 * 2 ^ 49) + 1) \/
     (e1 = e - 3 /\
      Z.pos m * 2 ^ 53 / (9 * 2 ^ 49) / 2 <= Z.pos m1
        <= Z.pos m * 2 ^ 53 / (9 * 2 ^ 49) / 2 + 1)).
Proof.
  intros Hm He.
  assert (Hd : Z.pos (digits2_pos m) = 53) by (apply digits2_pos_unique; lia).
  change (of_Z 9) with (S754_finite false 5066549580791808 (-49)).
  change (9 * 2 ^ 49) with 5066549580791808.
  unfold div, SFdiv, SFdiv_core_binary. cbv zeta.
  change (Zdigits2 (Z.pos 5066549580791808)) with 53.
  cbn [Zdigits2 xorb]. rewrite Hd.
  replace (Z.min (fexp prec emax (53 + e - (53 + -49))) (e - -49)) with (e - 4)
    by (unfold fexp, emin, prec, emax; lia).
  replace (e - -49 - (e - 4)) with 53 by lia.
  rewrite Z.shiftl_mul_pow2 by lia. rewrite div_eucl_pair.
  pose proof (Z.div_mod (Z.pos m * 2 ^ 53) 5066549580791808 ltac:(lia)) as Hdiv.
  pose proof (Z.mod_pos_bound (Z.pos m * 2 ^ 53) 5066549580791808 ltac:(lia)) as Hr.
  set (Q := Z.pos m * 2 ^ 53 / 5066549580791808) in *.
  set (R := Z.pos m * 2 ^ 53 mod 5066549580791808) in *.
  destruct Q as [|q|q] eqn:HQ; try lia.
  destruct (Z.lt_ge_cases (Z.pos q) (2 ^ 53)) as [Hsmall | Hbig].
  - pose proof (round_nearest_even_bounds (Z.pos q)
                  (new_location 5066549580791808 R)) as Hb.
    rewrite round_53 by lia.
    eexists _, _. split; [reflexivity|].
    rewrite Z2Pos.id by lia. split; [lia|]. left. split; [reflexivity | lia].
  - destruct (round_54 false q (e - 4) (new_location 5066549580791808 R))
      as (m1 & Heq & Hm1); [lia | lia |].
    rewrite Heq. exists m1, (e - 4 + 1).
    split; [reflexivity|].
    assert (Hq : 2 * (Z.pos q / 2) <= Z.pos q <= 2 * (Z.pos q / 2) + 1)
      by (Z.to_euclidean_division_equations; lia).
    split; [lia|]. right. split; [lia | lia].
Qed.

(** Multiplying a normal double by sixteen only moves the exponent. *)
Lemma mul_16 (m : positive) (e : Z) :
  2 ^ 52 <= Z.pos m < 2 ^ 53 -> -1000 <= e <= 900 ->
  mul (of_Z 16) (S754_finite false m e) = S754_finite false m (e + 4).
Proof.
  intros Hm He.
  assert (Hd : Z.pos (digits2_pos m) = 53) by (apply digits2_pos_unique; lia).
  change (of_Z 16) with (S754_finite false 4503599627370496 (-48)).
  unfold mul, SFmul. cbn [xorb].
  let t := eval cbv [Pos.mul] in (4503599627370496 * m)%positive in
  change (4503599627370496 * m)%positive with t.
  unfold binary_round_aux, shr_fexp.
  cbn [Zdigits2 digits2_pos]. rewrite !Pos2Z.inj_succ, Hd.
  replace (fexp prec emax _ - (-48 + e)) with 52
    by (unfold fexp, emin, prec, emax; lia).
  cbn [shr SpecFloat.iter_pos shr_1 shr_record_of_loc orb shr_m shr_r shr_s
       loc_of_shr_record round_nearest_even Zdigits2].
  rewrite Hd.
  replace (fexp prec emax _ - (-48 + e + 52)) with 0
    by (unfold fexp, emin, prec, emax; lia).
  cbn [shr shr_m]. rewrite fits by lia. f_equal. lia.
Qed.

Lemma floor_finite (m : positive) (e : Z) :
  e < 0 -> floor (S754_finite false m e) = of_Z (Z.pos m / 2 ^ (- e)).
Proof.
  intros He. unfold floor.
  replace (0 <=? e) with false by (symmetry; apply Z.leb_gt; lia).
  reflexivity.
Qed.

Lemma normalized_bounds (h : Z) :
  0 < h < 2 ^ 53 ->
  2 ^ 52 <= h * 2 ^ (52 - Z.log2 h) < 2 ^ 53.
Proof.
  intros Hh.
  pose proof (Z.log2_spec h ltac:(lia)) as Hlog.
  pose proof (Z.log2_nonneg h) as Hl0.
  assert (Hl53 : Z.log2 h < 53) by (apply Z.log2_lt_pow2; lia).
  assert (H52 : 2 ^ 52 = 2 ^ Z.log2 h * 2 ^ (52 - Z.log2 h))
    by (rewrite <- Z.pow_add_r by lia; f_equal; lia).
  assert (H53 : 2 ^ 53 = 2 ^ Z.succ (Z.log2 h) * 2 ^ (52 - Z.log2 h))
    by (rewrite <- Z.pow_add_r by lia; f_equal; lia).
  rewrite H52, H53.
  assert (HN : 0 < 2 ^ (52 - Z.log2 h)) by (apply Z.pow_pos_nonneg; lia).
  revert HN Hlog.
  generalize (2 ^ (52 - Z.log2 h)), (2 ^ Z.log2 h), (2 ^ Z.succ (Z.log2 h)).
  intros; nia.
Qed.

(** The floor of sixteen ninths of a dimension, computed in doubles as the
    source does, is the integer quotient. *)
Lemma scaled_floor (h : Z) :
  0 < h < 2 ^ 31 ->
  floor (mul (of_Z 16) (div (of_Z h) (of_Z 9))) = of_Z (16 * h / 9).
Proof.
  intros Hh.
  assert (Hl31 : Z.log2 h < 31) by (apply Z.log2_lt_pow2; lia).
  pose proof (Z.log2_nonneg h) as Hl0.
  pose proof (normalized_bounds h ltac:(lia)) as Hmx.
  rewrite (of_Z_pos h) by lia.
  set (l := Z.log2 h) in *.
  assert (HN : 2 ^ 22 <= 2 ^ (52 - l)) by (apply Z.pow_le_mono_r; lia).
  assert (HN2 : 2 ^ (52 - l) = 2 * 2 ^ (51 - l)).
  { replace (52 - l) with (Z.succ (51 - l)) by lia.
    rewrite Z.pow_succ_r by lia. reflexivity. }
  destruct (div_by_9 (Z.to_pos (h * 2 ^ (52 - l))) (l - 52))
    as (m1 & e1 & Hdiv & Hm1 & Hcases); [rewrite Z2Pos.id; lia | lia |].
  rewrite Z2Pos.id in Hcases by lia.
  rewrite Hdiv, mul_16 by (destruct Hcases as [[-> _] | [-> _]]; lia).
  rewrite floor_finite by (destruct Hcases as [[-> _] | [-> _]]; lia).
  f_equal.
  change (9 * 2 ^ 49) with 5066549580791808 in Hcases.
  pose proof (Z.div_mod (h * 2 ^ (52 - l) * 2 ^ 53) 5066549580791808 ltac:(lia))
    as HQ.
  pose proof (Z.mod_pos_bound (h * 2 ^ (52 - l) * 2 ^ 53) 5066549580791808
                ltac:(lia)) as HR.
  pose proof (Z.div_mod (16 * h) 9 ltac:(lia)) as Ht.
  pose proof (Z.mod_pos_bound (16 * h) 9 ltac:(lia)) as Hu.
  set (Q := h * 2 ^ (52 - l) * 2 ^ 53 / 5066549580791808) in *.
  set (R := h * 2 ^ (52 - l) * 2 ^ 53 mod 5066549580791808) in *.
  set (t := 16 * h / 9) in *.
  set (u := (16 * h) mod 9) in *.
  change (2 ^ 53) with 9007199254740992 in HQ.
  change (2 ^ 22) with 4194304 in HN.
  destruct Hcases as [[-> Hm] | [-> Hm]].
  - replace (- (l - 52 - 4 + 4)) with (52 - l) by lia.
    revert HN Hm HQ. generalize (2 ^ (52 - l)). intros N HN Hm HQ.
    assert (HT : 16 * (h * N) = 9 * (t * N) + u * N) by nia.
    assert (HU : 0 <= u * N <= 8 * N) by nia.
    symmetry. apply (Z.div_unique _ _ _ (Z.pos m1 - t * N)); lia.
  - replace (- (l - 52 - 3 + 4)) with (51 - l) by lia.
    rewrite HN2 in *.
    revert HN Hm HQ. generalize (2 ^ (51 - l)). intros N HN Hm HQ.
    assert (HT : 16 * (h * N) = 9 * (t * N) + u * N) by nia.
    assert (HU : 0 <= u * N <= 8 * N) by nia.
    assert (Hq : 2 * (Q / 2) <= Q <= 2 * (Q / 2) + 1)
      by (Z.to_euclidean_division_equations; lia).
    symmetry. apply (Z.div_unique _ _ _ (Z.pos m1 - t * N)); lia.
Qed.

Lemma scaled_floor_nonneg (h : Z) :
  0 <= h < 2 ^ 31 ->
  floor (mul (of_Z 16) (div (of_Z h) (of_Z 9))) = of_Z (16 * h / 9).
Proof.
  intros Hh. destruct (Z.eq_dec h 0) as [-> | Hne].
  - vm_compute. reflexivity.
  - apply scaled_floor. lia.
Qed.

Lemma eqb_finite_refl (m : positive) (e : Z) :
  eqb (S754_finite false m e) (S754_finite false m e) = true.
Proof.
  unfold eqb, SFeqb, SFcompare.
  rewrite Z.compare_refl.
  change (Pos.compare_cont Eq m m) with (Pos.compare m m).
  by rewrite Pos.compare_refl.
Qed.

(** On integers below 2^53 the equality of doubles is the equality of
    integers. *)
Lemma eqb_of_Z (a b : Z) :
  0 <= a < 2 ^ 53 -> 0 <= b < 2 ^ 53 ->
  eqb (of_Z a) (of_Z b) = (a =? b).
Proof.
  intros Ha Hb.
  destruct (Z.eq_dec a 0) as [-> | Ha0]; [|destruct (Z.eq_dec b 0) as [-> | Hb0]].
  - destruct (Z.eq_dec b 0) as [-> | Hb0]; [reflexivity|].
    rewrite (of_Z_pos b) by lia.
    replace (0 =? b) with false by (symmetry; apply Z.eqb_neq; lia).
    reflexivity.
  - rewrite (of_Z_pos a) by lia.
    replace (a =? 0) with false by (symmetry; apply Z.eqb_neq; lia).
    reflexivity.
  - destruct (Z.eqb_spec a b) as [-> | Hne].
    + rewrite (of_Z_pos b) by lia. apply eqb_finite_refl.
    + rewrite (of_Z_pos a), (of_Z_pos b) by lia.
      pose proof (normalized_bounds a ltac:(lia)) as Hma.
      pose proof (normalized_bounds b ltac:(lia)) as Hmb.
      unfold eqb, SFeqb, SFcompare.
      destruct (Z.compare_spec (Z.log2 a - 52) (Z.log2 b - 52)) as [He | He | He];
        try reflexivity.
      change (Pos.compare_cont Eq ?x ?y) with (Pos.compare x y).
      destruct (Pos.compare_spec (Z.to_pos (a * 2 ^ (52 - Z.log2 a)))
                  (Z.to_pos (b * 2 ^ (52 - Z.log2 b)))) as [Hm | Hm | Hm];
        try reflexivity.
      exfalso. apply Hne.
      apply Z2Pos.inj in Hm; [|lia|lia].
      replace (Z.log2 a) with (Z.log2 b) in Hm by lia.
      apply Z.mul_cancel_r in Hm; [exact Hm|].
      assert (0 < 2 ^ (52 - Z.log2 b)); [|lia].
      apply Z.pow_pos_nonneg; [lia|].
      assert (Z.log2 b < 53) by (apply Z.log2_lt_pow2; lia). lia.
Qed.

End DoubleArithmetic.

(** On dimensions that fit a signed 32-bit integer the chain of double
    operations in [getVideoAspectRatio] decides the integer relation. *)
Lemma aspect_of_dimensions (X : Externals) (width height : Z) :
  0 <= width < 2 ^ 31 -> 0 <= height < 2 ^ 31 ->
  Videos.aspect X (JNum (JsNumber.of_Z width)) (JNum (JsNumber.of_Z height))
    = Ok (if width =? 16 * height / 9 then "landscape"
          else if height =? 16 * width / 9 then "portrait"
          else "other").
Proof.
  intros Hw Hh.
  unfold Videos.aspect, strict_eq_num, ToNumber. cbv beta iota.
  rewrite !scaled_floor_nonneg by assumption.
  assert (0 <= 16 * height / 9 < 2 ^ 53)
    by (Z.to_euclidean_division_equations; lia).
  assert (0 <= 16 * width / 9 < 2 ^ 53)
    by (Z.to_euclidean_division_equations; lia).
  rewrite !eqb_of_Z by lia.
  destruct (width =? 16 * height / 9); [reflexivity|].
  destruct (height =? 16 * width / 9); reflexivity.
Qed.

(** The classification as [getVideoAspectRatio] delivers it: the probe
    exits with status 0 and prints a description whose [streams] array
    starts with a stream of the given dimensions. *)
Lemma getVideoAspectRatio_classifies
    (X : Externals) (filePath : string) (w : World) (output first : JsVal)
    (rest : list JsVal) (width height : Z) :
  exited (spawn X ["ffprobe"; "-v"; "error"; "-print_format"; "json";
                   "-show_streams"; filePath] (disk w)) = 0 ->
  JSON_parse X
    (stdout (spawn X ["ffprobe"; "-v"; "error"; "-print_format"; "json";
                      "-show_streams"; filePath] (disk w))) = Ok output ->
  js_get output "streams" = Ok (JArr (first :: rest)) ->
  Z.of_nat (length (first :: rest)) < 2 ^ 32 ->
  js_get first "width" = Ok (JNum (JsNumber.of_Z width)) ->
  js_get first "height" = Ok (JNum (JsNumber.of_Z height)) ->
  0 <= width < 2 ^ 31 -> 0 <= height < 2 ^ 31 ->
  fst (Videos.getVideoAspectRatio X filePath w)
    = Ok (if width =? 16 * height / 9 then "landscape"
          else if height =? 16 * width / 9 then "portrait"
          else "other").
Proof.
  intros Hexit Hparse Hstreams Hlen Hwidth Hheight Hw Hh.
  assert (Hlen0 :
    strict_eq_num (JNum (JsNumber.of_Z (Z.of_nat (length (first :: rest)))))
      (JsNumber.of_Z 0) = false).
  { unfold strict_eq_num. rewrite eqb_of_Z by lia.
    apply Z.eqb_neq. simpl length. lia. }
  unfold Videos.getVideoAspectRatio. unfold_m.
  cbn [fst snd disk with_trace with_disk trace negb].
  rewrite Hexit. cbn [Z.eqb negb fst]. rewrite Hparse. cbn [fst js_truthy negb].
  rewrite Hstreams. cbn [fst js_truthy negb js_get String.eqb Ascii.eqb Bool.eqb].
  rewrite Hlen0. cbn [js_first]. rewrite Hwidth, Hheight. cbn [fst].
  rewrite aspect_of_dimensions by assumption. reflexivity.
Qed.

(** C5: [getVideoAspectRatio] classifies by the dimensions of the first
    stream the probe reports.  When ffprobe exits with status 0 and the
    first entry of [streams] carries [width] and [height] (integers that
    fit a signed 32-bit [int]), the function returns [landscape] when
    [width = floor (16 * height / 9)], [portrait] when
    [height = floor (16 * width / 9)] and [other] otherwise, an exact
    integer test; a first stream of 1920x1080 gives [landscape], of
    1080x1920 [portrait] and of 1000x1000 [other]. *)
Theorem aspect_is_exact_integer_test
    (X : Externals) (filePath : string) (w : World) (output first : JsVal)
    (rest : list JsVal) (width height : Z) :
  exited (spawn X (ffprobe_command filePath) (disk w)) = 0 ->
  JSON_parse X (stdout (spawn X (ffprobe_command filePath) (disk w)))
    = Ok output ->
  js_get output "streams" = Ok (JArr (first :: rest)) ->
  Z.of_nat (length (first :: rest)) < 2 ^ 32 ->
  js_get first "width" = Ok (JNum (JsNumber.of_Z width)) ->
  js_get first "height" = Ok (JNum (JsNumber.of_Z height)) ->
  0 <= width < 2 ^ 31 -> 0 <= height < 2 ^ 31 ->
  fst (Videos.getVideoAspectRatio X filePath w)
    = Ok (if width =? 16 * height / 9 then "landscape"
          else if height =? 16 * width / 9 then "portrait"
          else "other") /\
  (width = 1920 -> height = 1080 ->
   fst (Videos.getVideoAspectRatio X filePath w) = Ok "landscape") /\
  (width = 1080 -> height = 1920 ->
   fst (Videos.getVideoAspectRatio X filePath w) = Ok "portrait") /\
  (width = 1000 -> height = 1000 ->
   fst (Videos.getVideoAspectRatio X filePath w) = Ok "other").
Proof.
  intros Hexit Hparse Hstreams Hlen Hwidth Hheight Hw Hh.
  pose proof (getVideoAspectRatio_classifies X filePath w output first rest
                width height Hexit Hparse Hstreams Hlen Hwidth Hheight Hw Hh)
    as Hclass.
  split; [exact Hclass|].
  repeat split; intros -> ->; exact Hclass.
Qed.

Lemma aspect_is_exact_integer_test_witness :
  fst (Videos.getVideoAspectRatio (Demo.externals None) "/srv/assets/v1.mp4"
         Demo.world) = Ok "landscape".
Proof.
  destruct (aspect_is_exact_integer_test (Demo.externals None)
              "/srv/assets/v1.mp4" Demo.world Demo.probe_json
              (JObj [("width", JNum (JsNumber.of_Z 1920));
                     ("height", JNum (JsNumber.of_Z 1080))])
              [] 1920 1080)
    as (_ & Hlandscape & _).
  - reflexivity.
  - reflexivity.
  - reflexivity.
  - simpl. lia.
  - reflexivity.
  - reflexivity.
  - lia.
  - lia.
  - apply Hlandscape; reflexivity.
Defined.

(** ** Further properties of the handlers *)

(** *** Shared steps *)

Ltac run_ends :=
  let H := fresh "Hrun" in
  intros H; inversion H; subst; clear H.

Lemma includes_one (a s : string) : includes [a] s = true -> s = a.
Proof.
  unfold includes. intros H. apply bool_decide_eq_true_1 in H.
  by apply list_elem_of_singleton in H.
Qed.

Lemma includes_two (a b s : string) :
  includes [a; b] s = true -> s = a \/ s = b.
Proof.
  unfold includes. intros H. apply bool_decide_eq_true_1 in H.
  apply elem_of_cons in H as [H | H]; [by left|].
  right. by apply list_elem_of_singleton in H.
Qed.

Ltac events_known :=
  match goal with
  | |- context [events_since ?w ?w'] =>
      let H := fresh "Hev" in
      eassert (H : events_since w w' = _)
        by (apply events_since_app; trace_eq);
      rewrite !H; clear H
  end.

Ltac mp4_only :=
  match goal with
  | H : negb (includes ["video/mp4"] (file_type ?f)) = false |- _ =>
      apply negb_false_iff, includes_one in H; rewrite ?H in *
  end.

Lemma aspect_in_categories (X : Externals) (width height : JsVal) (c : string) :
  Videos.aspect X width height = Ok c -> c ∈ categories.
Proof.
  unfold Videos.aspect, categories.
  destruct (ToNumber X height) as [h|e]; [|discriminate].
  destruct (strict_eq_num width _); [intros [= <-]; set_solver|].
  destruct (ToNumber X width) as [wn|e]; [|discriminate].
  destruct (strict_eq_num height _); intros [= <-]; set_solver.
Qed.

Lemma append_length (a b : string) :
  String.length (a +:+ b) = (String.length a + String.length b)%nat.
Proof. induction a as [|c a IH]; simpl; [reflexivity | by rewrite IH]. Qed.

Ltac concrete_names :=
  split; [reflexivity | discriminate].

Ltac concrete_auth user :=
  exists user; split; reflexivity.

Lemma video_ok_result :
  exists resp w', Demo.video_ok = (Ok resp, w').
Proof.
  destruct Demo.video_ok as [r w'] eqn:Hrun.
  assert (Hfst : fst Demo.video_ok
                 = Ok (respondWithJSON 200
                         (set_videoURL Demo.alice_video
                            ("https://cdn.example.net/landscape/"
                               +:+ Demo.name16 +:+ ".mp4"))))
    by (vm_compute; reflexivity).
  rewrite Hrun in Hfst. simpl in Hfst. subst r. eauto.
Qed.

Lemma thumbnail_ok_result :
  exists resp w', Demo.thumbnail_ok = (Ok resp, w').
Proof.
  destruct Demo.thumbnail_ok as [r w'] eqn:Hrun.
  assert (Hfst : fst Demo.thumbnail_ok
                 = Ok (respondWithJSON 200
                         (set_thumbnailURL Demo.alice_video
                            ("http://localhost:8091/assets/"
                               +:+ Demo.name64 +:+ ".jpeg"))))
    by (vm_compute; reflexivity).
  rewrite Hrun in Hfst. simpl in Hfst. subst r. eauto.
Qed.

(** *** Witnesses of the supporting lemmas above *)

Lemma video_non_owner_forbidden_witness :
  fst (Videos.handlerUploadVideo (Demo.externals None) Demo.cfg
         (Demo.upload "v1" "bob" "video" Demo.mp4) Demo.world)
  = Throw (UserForbiddenError "Editing video not allowed.").
Proof.
  assert (Hn : names_video (Demo.upload "v1" "bob" "video" Demo.mp4) "v1")
    by concrete_names.
  assert (Ha : authenticated (Demo.externals None) Demo.cfg
                 (Demo.upload "v1" "bob" "video" Demo.mp4) "bob")
    by concrete_auth "bob".
  assert (Hr : getVideo (db Demo.world) "v1" = Some Demo.alice_video)
    by reflexivity.
  assert (Ho : userID Demo.alice_video <> "bob") by discriminate.
  exact (proj1 (video_non_owner_forbidden _ _ _ _ _ _ _ _ _ Hn Ha Hr Ho
                  (surjective_pairing _))).
Defined.

Lemma thumbnail_non_owner_fails_witness :
  is_failure
    (fst (Thumbnails.handlerUploadThumbnail (Demo.externals None) Demo.cfg
            (Demo.upload "v1" "bob" "thumbnail" Demo.jpeg) Demo.world)).
Proof.
  assert (Hn : names_video (Demo.upload "v1" "bob" "thumbnail" Demo.jpeg) "v1")
    by concrete_names.
  assert (Ha : authenticated (Demo.externals None) Demo.cfg
                 (Demo.upload "v1" "bob" "thumbnail" Demo.jpeg) "bob")
    by concrete_auth "bob".
  assert (Hr : getVideo (db Demo.world) "v1" = Some Demo.alice_video)
    by reflexivity.
  assert (Ho : userID Demo.alice_video <> "bob") by discriminate.
  exact (proj1 (thumbnail_non_owner_fails _ _ _ _ _ _ _ _ _ Hn Ha Hr Ho
                  (surjective_pairing _))).
Defined.

Lemma video_checks_precede_file_witness :
  exists vid user v,
    names_video (Demo.upload "v1" "alice" "video" Demo.mp4) vid /\
    authenticated (Demo.externals None) Demo.cfg
      (Demo.upload "v1" "alice" "video" Demo.mp4) user /\
    getVideo (db Demo.world) vid = Some v /\ userID v = user.
Proof.
  apply (video_checks_precede_file (Demo.externals None) Demo.cfg
           (Demo.upload "v1" "alice" "video" Demo.mp4) Demo.world
           (snd Demo.video_ok) (fst Demo.video_ok) EvFormData).
  - apply surjective_pairing.
  - vm_compute. tauto.
  - reflexivity.
Defined.

Lemma video_url_persisted_after_store_witness :
  exists key obj,
    bucket (snd Demo.video_ok) !! key = Some obj /\
    s3WriteError (Demo.externals None) key = None.
Proof.
  destruct (video_url_persisted_after_store (Demo.externals None) Demo.cfg
              (Demo.upload "v1" "alice" "video" Demo.mp4) Demo.world
              (snd Demo.video_ok) (fst Demo.video_ok)
              (set_videoURL Demo.alice_video
                 ("https://cdn.example.net/landscape/" +:+ Demo.name16 +:+ ".mp4")))
    as (key & obj & _ & Hobj & Hok).
  - apply surjective_pairing.
  - vm_compute. tauto.
  - exists key, obj. split; assumption.
Defined.

Lemma processed_copy_deleted_witness :
  exists filePath,
    disk (snd Demo.video_ok) !! (filePath +:+ ".processed") = None.
Proof.
  destruct video_ok_result as (resp & w' & Hrun).
  destruct (processed_copy_deleted (Demo.externals None) Demo.cfg
              (Demo.upload "v1" "alice" "video" Demo.mp4) Demo.world w' resp Hrun)
    as (filePath & key & _ & _ & Hgone).
  exists filePath. unfold Demo.video_ok in Hrun |- *.
  rewrite Hrun. exact Hgone.
Defined.

(** *** Failure, ownership and the gates of the upload handlers *)

(** X6: a thumbnail upload that fails, for whatever reason, has written
    nothing: table, disk, bucket and thumbnail map are as they were, no
    write was started and no record was persisted. *)
Theorem thumbnail_failure_changes_nothing
    (X : Externals) (cfg : ApiConfig) (req : Request) (w w' : World) (e : Err) :
  Thumbnails.handlerUploadThumbnail X cfg req w = (Throw e, w') ->
  same_stores w w' /\
  none_of is_storage_write (events_since w w') /\
  forall v, ~ In (EvUpdateVideo v) (events_since w w').
Proof.
  unfold Thumbnails.handlerUploadThumbnail. unfold_m.
  repeat case_step; run_ends.
  all: split; [by unfold same_stores|]; split; [trace_goal|].
  all: intros u Hin; events_in Hin.
Qed.

Lemma thumbnail_failure_changes_nothing_witness :
  same_stores Demo.world
    (snd (Thumbnails.handlerUploadThumbnail (Demo.externals None) Demo.cfg
            (Demo.upload "v1" "alice" "thumbnail" Demo.gif) Demo.world)).
Proof.
  pose proof (surjective_pairing
                (Thumbnails.handlerUploadThumbnail (Demo.externals None) Demo.cfg
                   (Demo.upload "v1" "alice" "thumbnail" Demo.gif) Demo.world))
    as Hrun.
  assert (Hfst :
    fst (Thumbnails.handlerUploadThumbnail (Demo.externals None) Demo.cfg
           (Demo.upload "v1" "alice" "thumbnail" Demo.gif) Demo.world)
    = Throw (BadRequestError "Only JPEG and PNG files allowed!"))
    by (vm_compute; reflexivity).
  rewrite Hfst in Hrun.
  exact (proj1 (thumbnail_failure_changes_nothing _ _ _ _ _ _ Hrun)).
Defined.

(** X7: the thumbnail pipeline persists a record only for the
    authenticated owner of the video the request names; the record it
    persists is the loaded one with nothing but [thumbnailURL] replaced,
    and the answer is then 200 with that record. *)
Theorem thumbnail_update_by_owner_only
    (X : Externals) (cfg : ApiConfig) (req : Request) (w w' : World)
    (r : Result Response) (v : Video) :
  Thumbnails.handlerUploadThumbnail X cfg req w = (r, w') ->
  In (EvUpdateVideo v) (events_since w w') ->
  exists vid user v0 url,
    names_video req vid /\ authenticated X cfg req user /\
    getVideo (db w) vid = Some v0 /\ userID v0 = user /\
    v = set_thumbnailURL v0 url /\
    db w' = updateVideo (db w) v /\
    r = Ok (respondWithJSON 200 v).
Proof.
  unfold Thumbnails.handlerUploadThumbnail. unfold_m.
  repeat case_step; intros [= <- <-] Hin; events_in Hin.
  all: match goal with H : EvUpdateVideo _ = EvUpdateVideo _ |- _ =>
         injection H as <- end.
  all: eqb_facts; subst.
  all: eexists _, _, _, _; repeat split; eauto.
  all: eexists; eauto.
Qed.

Lemma thumbnail_update_by_owner_only_witness :
  exists vid user,
    names_video (Demo.upload "v1" "alice" "thumbnail" Demo.jpeg) vid /\
    authenticated (Demo.externals None) Demo.cfg
      (Demo.upload "v1" "alice" "thumbnail" Demo.jpeg) user.
Proof.
  destruct (thumbnail_update_by_owner_only (Demo.externals None) Demo.cfg
              (Demo.upload "v1" "alice" "thumbnail" Demo.jpeg) Demo.world
              (snd Demo.thumbnail_ok) (fst Demo.thumbnail_ok)
              (set_thumbnailURL Demo.alice_video
                 ("http://localhost:8091/assets/" +:+ Demo.name64 +:+ ".jpeg")))
    as (vid & user & _ & _ & Hn & Ha & _).
  - apply surjective_pairing.
  - vm_compute. tauto.
  - exists vid, user. split; assumption.
Defined.

(** X8: the video pipeline persists a record only for the authenticated
    owner of the video the request names, and the record it persists is
    the loaded one with nothing but [videoURL] replaced. *)
Theorem video_update_by_owner_only
    (X : Externals) (cfg : ApiConfig) (req : Request) (w w' : World)
    (r : Result Response) (v : Video) :
  Videos.handlerUploadVideo X cfg req w = (r, w') ->
  In (EvUpdateVideo v) (events_since w w') ->
  exists vid user v0 url,
    names_video req vid /\ authenticated X cfg req user /\
    getVideo (db w) vid = Some v0 /\ userID v0 = user /\
    v = set_videoURL v0 url /\
    db w' = updateVideo (db w) v.
Proof.
  unfold Videos.handlerUploadVideo. unfold_m.
  repeat case_step; intros [= <- <-] Hin; events_in Hin.
  all: match goal with H : EvUpdateVideo _ = EvUpdateVideo _ |- _ =>
         injection H as <- end.
  all: eqb_facts; subst.
  all: eexists _, _, _, _; repeat split; eauto.
  all: eexists; eauto.
Qed.

Lemma video_update_by_owner_only_witness :
  exists vid user,
    names_video (Demo.upload "v1" "alice" "video" Demo.mp4) vid /\
    authenticated (Demo.externals None) Demo.cfg
      (Demo.upload "v1" "alice" "video" Demo.mp4) user.
Proof.
  destruct (video_update_by_owner_only (Demo.externals None) Demo.cfg
              (Demo.upload "v1" "alice" "video" Demo.mp4) Demo.world
              (snd Demo.video_ok) (fst Demo.video_ok)
              (set_videoURL Demo.alice_video
                 ("https://cdn.example.net/landscape/" +:+ Demo.name16 +:+ ".mp4")))
    as (vid & user & _ & _ & Hn & Ha & _).
  - apply surjective_pairing.
  - vm_compute. tauto.
  - exists vid, user. split; assumption.
Defined.

(** X9: when the bearer token is missing or does not validate, both upload
    handlers fail with the error of the auth module, leave every store as
    it was and perform no effect beyond the two auth calls. *)
Theorem unauthenticated_upload_rejected
    (X : Externals) (cfg : ApiConfig) (req : Request) (w : World)
    (vid : string) (e : Err) :
  names_video req vid ->
  getBearerToken X (req_headers req) = Throw e \/
  (exists token, getBearerToken X (req_headers req) = Ok token /\
                 validateJWT X token (jwtSecret cfg) = Throw e) ->
  (fst (Thumbnails.handlerUploadThumbnail X cfg req w) = Throw e /\
   same_stores w (snd (Thumbnails.handlerUploadThumbnail X cfg req w)) /\
   none_of (fun ev => negb (match ev with
                            | EvGetBearerToken | EvValidateJWT => true
                            | _ => false
                            end))
     (events_since w (snd (Thumbnails.handlerUploadThumbnail X cfg req w)))) /\
  (fst (Videos.handlerUploadVideo X cfg req w) = Throw e /\
   same_stores w (snd (Videos.handlerUploadVideo X cfg req w)) /\
   none_of (fun ev => negb (match ev with
                            | EvGetBearerToken | EvValidateJWT => true
                            | _ => false
                            end))
     (events_since w (snd (Videos.handlerUploadVideo X cfg req w)))).
Proof.
  intros [Hid Hne] Hauth. apply String.eqb_neq in Hne.
  unfold Thumbnails.handlerUploadThumbnail, Videos.handlerUploadVideo. unfold_m.
  rewrite Hid, Hne.
  destruct Hauth as [Htok | (token & Htok & Hjwt)]; rewrite Htok; simpl;
    rewrite ?Hjwt; simpl.
  all: repeat split; trace_goal.
Qed.

Lemma unauthenticated_upload_rejected_witness :
  fst (Videos.handlerUploadVideo (Demo.externals None) Demo.cfg
         (Demo.anonymous_upload "v1") Demo.world)
  = Throw (UserNotAuthenticatedError "Malformed authorization header").
Proof.
  assert (Hn : names_video (Demo.anonymous_upload "v1") "v1") by concrete_names.
  exact (proj1 (proj2 (unauthenticated_upload_rejected (Demo.externals None)
                         Demo.cfg (Demo.anonymous_upload "v1") Demo.world "v1"
                         (UserNotAuthenticatedError "Malformed authorization header")
                         Hn (or_introl eq_refl)))).
Defined.

(** X10: an authenticated upload for a video id the table does not hold:
    the video handler answers [NotFoundError] right after the lookup; the
    thumbnail handler never succeeds, changes nothing, and answers
    [NotFoundError] once the submitted file has passed validation. *)
Theorem upload_for_unknown_video
    (X : Externals) (cfg : ApiConfig) (req : Request) (w : World)
    (vid user : string) :
  names_video req vid -> authenticated X cfg req user ->
  getVideo (db w) vid = None ->
  (Videos.handlerUploadVideo X cfg req w
   = (Throw (NotFoundError "Couldn't find video"),
      with_trace w (trace w ++ [EvGetBearerToken; EvValidateJWT; EvGetVideo vid])%list)) /\
  (is_failure (fst (Thumbnails.handlerUploadThumbnail X cfg req w)) /\
   same_stores w (snd (Thumbnails.handlerUploadThumbnail X cfg req w)) /\
   (forall f, carries req "thumbnail" f ->
      file_size f <= 10 * 1024 * 1024 ->
      file_type f ∈ ["image/jpeg"; "image/png"] ->
      fst (Thumbnails.handlerUploadThumbnail X cfg req w)
      = Throw (NotFoundError "Couldn't find video"))).
Proof.
  intros [Hid Hne] (token & Htok & Hjwt) Hrow. apply String.eqb_neq in Hne.
  unfold Thumbnails.handlerUploadThumbnail, Videos.handlerUploadVideo. unfold_m.
  rewrite Hid, Hne, Htok. simpl. rewrite Hjwt. simpl. rewrite Hrow. simpl.
  split.
  - unfold with_trace. simpl. by rewrite <- !app_assoc.
  - split; [|split].
    + repeat case_step; unfold is_failure; eauto.
    + repeat case_step; by unfold same_stores.
    + intros f (fd & Hform & Hget) Hsize Htype.
      rewrite Hform. simpl. rewrite Hget.
      replace (Thumbnails.MAX_UPLOAD_SIZE <? file_size f) with false
        by (symmetry; apply Z.ltb_ge;
            change Thumbnails.MAX_UPLOAD_SIZE with 10485760; lia).
      unfold includes. rewrite bool_decide_eq_true_2 by exact Htype.
      simpl. rewrite Hrow. reflexivity.
Qed.

Lemma upload_for_unknown_video_witness :
  fst (Thumbnails.handlerUploadThumbnail (Demo.externals None) Demo.cfg
         (Demo.upload "v404" "alice" "thumbnail" Demo.jpeg) Demo.world)
  = Throw (NotFoundError "Couldn't find video").
Proof.
  assert (Hn : names_video (Demo.upload "v404" "alice" "thumbnail" Demo.jpeg) "v404")
    by concrete_names.
  assert (Ha : authenticated (Demo.externals None) Demo.cfg
                 (Demo.upload "v404" "alice" "thumbnail" Demo.jpeg) "alice")
    by concrete_auth "alice".
  assert (Hr : getVideo (db Demo.world) "v404" = None) by reflexivity.
  destruct (upload_for_unknown_video (Demo.externals None) Demo.cfg
              (Demo.upload "v404" "alice" "thumbnail" Demo.jpeg) Demo.world
              "v404" "alice" Hn Ha Hr) as (_ & _ & _ & Hvalid).
  apply (Hvalid Demo.jpeg).
  - eexists. split; reflexivity.
  - simpl. lia.
  - apply (bool_decide_unpack _). vm_compute. exact I.
Defined.

(** X11: when the form has no file under the expected field (the field is
    absent or holds text), the owner's upload is refused with the
    [BadRequestError] of the missing file and nothing is changed. *)
Theorem upload_without_file
    (X : Externals) (cfg : ApiConfig) (req : Request) (w : World)
    (vid user : string) (v : Video) (fd : FormData) :
  names_video req vid -> authenticated X cfg req user ->
  getVideo (db w) vid = Some v -> userID v = user ->
  req_form req = Ok fd ->
  (forall f, form_get fd "thumbnail" <> Some (FormFile f)) ->
  (forall f, form_get fd "video" <> Some (FormFile f)) ->
  (fst (Thumbnails.handlerUploadThumbnail X cfg req w)
   = Throw (BadRequestError "Thumbnail file missing") /\
   same_stores w (snd (Thumbnails.handlerUploadThumbnail X cfg req w))) /\
  (fst (Videos.handlerUploadVideo X cfg req w)
   = Throw (BadRequestError "video file missing") /\
   same_stores w (snd (Videos.handlerUploadVideo X cfg req w))).
Proof.
  intros [Hid Hne] (token & Htok & Hjwt) Hrow Hown Hform HnoT HnoV.
  apply String.eqb_neq in Hne.
  assert (Hmine : String.eqb (userID v) user = true) by by apply String.eqb_eq.
  unfold Thumbnails.handlerUploadThumbnail, Videos.handlerUploadVideo. unfold_m.
  rewrite Hid, Hne, Htok. simpl. rewrite Hjwt. simpl. rewrite Hrow. simpl.
  rewrite Hmine, Hform. simpl.
  split.
  - destruct (form_get fd "thumbnail") as [[s | f] |] eqn:Hget;
      try (by destruct (HnoT f)); by repeat split.
  - destruct (form_get fd "video") as [[s | f] |] eqn:Hget;
      try (by destruct (HnoV f)); by repeat split.
Qed.

Lemma upload_without_file_witness :
  fst (Thumbnails.handlerUploadThumbnail (Demo.externals None) Demo.cfg
         (Demo.text_upload "v1" "alice") Demo.world)
  = Throw (BadRequestError "Thumbnail file missing") /\
  fst (Videos.handlerUploadVideo (Demo.externals None) Demo.cfg
         (Demo.text_upload "v1" "alice") Demo.world)
  = Throw (BadRequestError "video file missing").
Proof.
  assert (Hn : names_video (Demo.text_upload "v1" "alice") "v1")
    by concrete_names.
  assert (Ha : authenticated (Demo.externals None) Demo.cfg
                 (Demo.text_upload "v1" "alice") "alice")
    by concrete_auth "alice".
  assert (Hr : getVideo (db Demo.world) "v1" = Some Demo.alice_video)
    by reflexivity.
  destruct (upload_without_file (Demo.externals None) Demo.cfg
              (Demo.text_upload "v1" "alice") Demo.world "v1" "alice"
              Demo.alice_video _ Hn Ha Hr eq_refl eq_refl)
    as [[HT _] [HV _]].
  - intros f. vm_compute. discriminate.
  - intros f. vm_compute. discriminate.
  - split; assumption.
Defined.

(** X17: a video upload that fails has either left table, bucket and
    thumbnail map untouched, with no record persisted and nothing deleted,
    or it failed at the deletion of the processed copy, after the object
    was stored and the record persisted. *)
Theorem video_failure_is_clean_or_late
    (X : Externals) (cfg : ApiConfig) (req : Request) (w w' : World) (e : Err) :
  Videos.handlerUploadVideo X cfg req w = (Throw e, w') ->
  (none_of is_delete (events_since w w') /\
   db w' = db w /\ bucket w' = bucket w /\
   videoThumbnails w' = videoThumbnails w /\
   forall v, ~ In (EvUpdateVideo v) (events_since w w')) \/
  (exists v key obj p,
     In (EvDelete p) (events_since w w') /\
     In (EvUpdateVideo v) (events_since w w') /\
     db w' = updateVideo (db w) v /\
     videoURL v = Some (s3CfDistribution cfg +:+ "/" +:+ key) /\
     bucket w' !! key = Some obj).
Proof.
  unfold Videos.handlerUploadVideo. unfold_m.
  repeat case_step; run_ends.
  all: first
    [ left; split; [trace_goal|]; repeat (split; [reflexivity|]);
      intros u Hin; events_in Hin
    | right; eexists _, _, _, _; split; [found_in_trace|];
      split; [found_in_trace|]; split; [reflexivity|];
      split; [reflexivity|]; apply lookup_insert_eq ].
Qed.

Lemma video_failure_is_clean_or_late_witness :
  exists v,
    db (snd (Videos.handlerUploadVideo Demo.stuck_cleanup Demo.cfg
               (Demo.upload "v1" "alice" "video" Demo.mp4) Demo.world))
    = updateVideo (db Demo.world) v /\
    exists key, videoURL v = Some (s3CfDistribution Demo.cfg +:+ "/" +:+ key).
Proof.
  pose proof (surjective_pairing
                (Videos.handlerUploadVideo Demo.stuck_cleanup Demo.cfg
                   (Demo.upload "v1" "alice" "video" Demo.mp4) Demo.world))
    as Hrun.
  assert (Hfst :
    fst (Videos.handlerUploadVideo Demo.stuck_cleanup Demo.cfg
           (Demo.upload "v1" "alice" "video" Demo.mp4) Demo.world)
    = Throw (Error "EBUSY")) by (vm_compute; reflexivity).
  rewrite Hfst in Hrun.
  destruct (video_failure_is_clean_or_late _ _ _ _ _ _ Hrun)
    as [(Hnone & _) | (v & key & obj & p & _ & _ & Hdb & Hurl & _)].
  - vm_compute in Hnone. discriminate Hnone.
  - exists v. split; [exact Hdb|]. exists key. exact Hurl.
Defined.

(** *** Fetching a thumbnail *)

(** X12: fetching a thumbnail changes no store, gives the same answer when
    repeated, and answers from the table and the in-memory map alone:
    [NotFoundError] for an unknown video, then [NotFoundError] for a
    missing entry, else 200 with the entry's bytes, its media type as
    [Content-Type] and [Cache-Control: no-store]. *)
Theorem get_thumbnail_reads_only
    (cfg : ApiConfig) (req : Request) (w : World) :
  same_stores w (snd (Thumbnails.handlerGetThumbnail cfg req w)) /\
  fst (Thumbnails.handlerGetThumbnail cfg req
         (snd (Thumbnails.handlerGetThumbnail cfg req w)))
  = fst (Thumbnails.handlerGetThumbnail cfg req w) /\
  (forall vid, names_video req vid ->
     fst (Thumbnails.handlerGetThumbnail cfg req w)
     = match getVideo (db w) vid, videoThumbnails w !! vid with
       | None, _ => Throw (NotFoundError "Couldn't find video")
       | Some _, None => Throw (NotFoundError "Thumbnail not found")
       | Some _, Some t =>
           Ok (mkResponse 200
                 [("Content-Type", mediaType t); ("Cache-Control", "no-store")]
                 (BodyBytes (data t)))
       end).
Proof.
  unfold Thumbnails.handlerGetThumbnail. unfold_m.
  split; [|split].
  - repeat case_step; by unfold same_stores.
  - destruct (req_videoId req) as [vid|]; [|reflexivity].
    destruct (String.eqb vid ""); [reflexivity|]. simpl.
    destruct (getVideo (db w) vid) eqn:Hrow; simpl; rewrite ?Hrow; simpl;
      [|reflexivity].
    destruct (videoThumbnails w !! vid) eqn:Hmap; simpl; rewrite ?Hrow; simpl;
      rewrite ?Hmap; reflexivity.
  - intros vid [Hid Hne]. apply String.eqb_neq in Hne. rewrite Hid, Hne. simpl.
    destruct (getVideo (db w) vid); simpl; [|reflexivity].
    destruct (videoThumbnails w !! vid); reflexivity.
Qed.

Lemma get_thumbnail_reads_only_witness :
  fst (Thumbnails.handlerGetThumbnail Demo.cfg (Demo.fetch "v1")
         Demo.world_with_thumbnail)
  = Ok (mkResponse 200
          [("Content-Type", "image/jpeg"); ("Cache-Control", "no-store")]
          (BodyBytes ["a"; "b"; "c"]%byte)).
Proof.
  destruct (get_thumbnail_reads_only Demo.cfg (Demo.fetch "v1")
              Demo.world_with_thumbnail) as (_ & _ & Hserved).
  rewrite (Hserved "v1"); [|concrete_names].
  vm_compute. reflexivity.
Defined.

(** *** The order of effects and the shape of success *)

(** X13: the video pipeline is linear: the effects of any run are an
    initial segment of auth, lookup, form, read, temp write, probe, random
    name, transcode, object-store write, record update, deletion of the
    processed copy, all on the path of the video id with extension [mp4];
    a run that answers with success has performed all of them. *)
Theorem video_effects_in_order
    (X : Externals) (cfg : ApiConfig) (req : Request) (w w' : World)
    (r : Result Response) (vid : string) :
  names_video req vid ->
  Videos.handlerUploadVideo X cfg req w = (r, w') ->
  exists key v,
    events_since w w'
      `prefix_of` video_pipeline vid
                    (path_join X (assetsRoot cfg) (vid +:+ ".mp4")) key v /\
    (forall resp, r = Ok resp ->
       events_since w w'
       = video_pipeline vid (path_join X (assetsRoot cfg) (vid +:+ ".mp4")) key v).
Proof.
  intros [Hid Hne]. apply String.eqb_neq in Hne.
  unfold Videos.handlerUploadVideo. unfold_m. rewrite Hid, Hne.
  repeat case_step; intros [= <- <-]; try mp4_only; events_known.
  all: eexists _, _; split;
    [eexists; unfold video_pipeline; simpl; reflexivity
    | intros resp Hok; first [discriminate Hok | reflexivity]].
  Unshelve.
  all: first [exact "" | exact (mkVideo "" "" None None "")].
Qed.

Lemma video_effects_in_order_witness :
  exists key v,
    events_since Demo.world (snd Demo.video_ok)
    = video_pipeline "v1"
        (path_join (Demo.externals None) (assetsRoot Demo.cfg) ("v1" +:+ ".mp4"))
        key v.
Proof.
  destruct video_ok_result as (resp & w' & Hrun).
  assert (Hn : names_video (Demo.upload "v1" "alice" "video" Demo.mp4) "v1")
    by concrete_names.
  destruct (video_effects_in_order (Demo.externals None) Demo.cfg
              (Demo.upload "v1" "alice" "video" Demo.mp4) Demo.world w'
              (Ok resp) "v1" Hn Hrun) as (key & v & _ & Hall).
  exists key, v. unfold Demo.video_ok in Hrun |- *. rewrite Hrun.
  apply (Hall resp). reflexivity.
Defined.

(** X14: the thumbnail pipeline is linear: the effects of any run are an
    initial segment of auth, log, form, read, lookup, random name, disk
    write, record update; a run that answers with success has performed
    all of them. *)
Theorem thumbnail_effects_in_order
    (X : Externals) (cfg : ApiConfig) (req : Request) (w w' : World)
    (r : Result Response) (vid : string) :
  names_video req vid ->
  Thumbnails.handlerUploadThumbnail X cfg req w = (r, w') ->
  exists path v,
    events_since w w' `prefix_of` thumbnail_pipeline vid path v /\
    (forall resp, r = Ok resp ->
       events_since w w' = thumbnail_pipeline vid path v).
Proof.
  intros [Hid Hne]. apply String.eqb_neq in Hne.
  unfold Thumbnails.handlerUploadThumbnail. unfold_m. rewrite Hid, Hne.
  repeat case_step; intros [= <- <-]; events_known.
  all: eexists _, _; split;
    [eexists; unfold thumbnail_pipeline; simpl; reflexivity
    | intros resp Hok; first [discriminate Hok | reflexivity]].
  Unshelve.
  all: first [exact "" | exact (mkVideo "" "" None None "")].
Qed.

Lemma thumbnail_effects_in_order_witness :
  exists path v,
    events_since Demo.world (snd Demo.thumbnail_ok)
    = thumbnail_pipeline "v1" path v.
Proof.
  destruct thumbnail_ok_result as (resp & w' & Hrun).
  assert (Hn : names_video (Demo.upload "v1" "alice" "thumbnail" Demo.jpeg) "v1")
    by concrete_names.
  destruct (thumbnail_effects_in_order (Demo.externals None) Demo.cfg
              (Demo.upload "v1" "alice" "thumbnail" Demo.jpeg) Demo.world w'
              (Ok resp) "v1" Hn Hrun) as (path & v & _ & Hall).
  exists path, v. unfold Demo.thumbnail_ok in Hrun |- *. rewrite Hrun.
  apply (Hall resp). reflexivity.
Defined.

(** X15: a video upload answers with success only for a file within the
    size ceiling and of type [video/mp4]; the answer is 200 with the
    record whose [videoURL] is the distribution address over the key
    [<category>/<hex name>.mp4], the category being one of the three, and
    the bucket holds an object of type [video/mp4] under that key. *)
Theorem video_success_shape
    (X : Externals) (cfg : ApiConfig) (req : Request) (w w' : World)
    (resp : Response) :
  Videos.handlerUploadVideo X cfg req w = (Ok resp, w') ->
  exists vid f v0 category obj,
    names_video req vid /\ carries req "video" f /\
    file_size f <= 1024 * 1024 * 1024 /\ file_type f = "video/mp4" /\
    getVideo (db w) vid = Some v0 /\
    category ∈ categories /\
    resp = respondWithJSON 200
             (set_videoURL v0
                (s3CfDistribution cfg +:+ "/" +:+ category +:+ "/"
                   +:+ to_hex (randomBytes X 32) +:+ ".mp4")) /\
    bucket w' !! (category +:+ "/" +:+ to_hex (randomBytes X 32) +:+ ".mp4")
      = Some obj /\
    s3_type obj = "video/mp4" /\
    videoThumbnails w' = videoThumbnails w.
Proof.
  unfold Videos.handlerUploadVideo. unfold_m.
  repeat case_step; intros [= <- <-]; mp4_only.
  all: match goal with H : (Videos.MAX_UPLOAD_SIZE <? _) = false |- _ =>
         apply Z.ltb_ge in H; change Videos.MAX_UPLOAD_SIZE with 1073741824 in H
       end.
  all: eqb_facts.
  all: eexists _, _, _, _, _; split; [split; eassumption|].
  all: split; [eexists; split; eassumption|].
  all: split; [lia|]; split; [assumption|]; split; [eassumption|].
  all: split; [eapply aspect_in_categories; eassumption|].
  all: split; [reflexivity|]; split; [apply lookup_insert_eq|].
  all: split; reflexivity.
Qed.

Lemma video_success_shape_witness :
  exists f, carries (Demo.upload "v1" "alice" "video" Demo.mp4) "video" f /\
            file_type f = "video/mp4".
Proof.
  destruct video_ok_result as (resp & w' & Hrun).
  destruct (video_success_shape (Demo.externals None) Demo.cfg
              (Demo.upload "v1" "alice" "video" Demo.mp4) Demo.world w' resp Hrun)
    as (vid & f & v0 & category & obj & _ & Hf & _ & Ht & _).
  exists f. split; assumption.
Defined.

(** X16: a thumbnail upload answers with success only for a file within
    the size ceiling and of type [image/jpeg] or [image/png]; the asset
    name ends in the matching extension ([jpeg] or [png]), the write of
    that file was started and the answer is 200 with the record carrying
    its URL. *)
Theorem thumbnail_success_shape
    (X : Externals) (cfg : ApiConfig) (req : Request) (w w' : World)
    (resp : Response) :
  Thumbnails.handlerUploadThumbnail X cfg req w = (Ok resp, w') ->
  exists vid f v0 ext,
    names_video req vid /\ carries req "thumbnail" f /\
    file_size f <= 10 * 1024 * 1024 /\
    ((file_type f = "image/jpeg" /\ ext = "jpeg") \/
     (file_type f = "image/png" /\ ext = "png")) /\
    getVideo (db w) vid = Some v0 /\
    resp = respondWithJSON 200
             (set_thumbnailURL v0
                ("http://localhost:" +:+ port cfg +:+ "/assets/"
                   +:+ to_base64url (randomBytes X 32) +:+ "." +:+ ext)) /\
    In (EvBunWrite
          (path_join X (assetsRoot cfg)
             (to_base64url (randomBytes X 32) +:+ "." +:+ ext)))
       (events_since w w').
Proof.
  unfold Thumbnails.handlerUploadThumbnail. unfold_m.
  repeat case_step; intros [= <- <-].
  all: match goal with H : (Thumbnails.MAX_UPLOAD_SIZE <? _) = false |- _ =>
         apply Z.ltb_ge in H;
         change Thumbnails.MAX_UPLOAD_SIZE with 10485760 in H
       end.
  all: match goal with
       | H : negb (includes ["image/jpeg"; "image/png"] (file_type ?f)) = false
         |- _ =>
           apply negb_false_iff, includes_two in H; destruct H as [H | H];
           rewrite ?H in *
       end.
  all: eqb_facts.
  all: eexists _, _, _, _; split; [split; eassumption|].
  all: split; [eexists; split; eassumption|].
  all: split; [lia|].
  all: split; [first [left; split; [assumption | reflexivity]
                     | right; split; [assumption | reflexivity]]|].
  all: split; [eassumption|]; split; [reflexivity|]; found_in_trace.
Qed.

Lemma thumbnail_success_shape_witness :
  exists f, carries (Demo.upload "v1" "alice" "thumbnail" Demo.jpeg) "thumbnail" f /\
            file_size f <= 10 * 1024 * 1024.
Proof.
  destruct thumbnail_ok_result as (resp & w' & Hrun).
  destruct (thumbnail_success_shape (Demo.externals None) Demo.cfg
              (Demo.upload "v1" "alice" "thumbnail" Demo.jpeg) Demo.world w' resp
              Hrun)
    as (vid & f & v0 & ext & _ & Hf & Hs & _).
  exists f. split; assumption.
Defined.

(** *** The probe and the transcoder *)

(** X18: [getVideoAspectRatio] spawns exactly one process, ffprobe on the
    given path, and touches neither table nor bucket; a nonzero exit status
    makes it fail with the text of stderr, and a category it returns is one
    of [landscape], [portrait], [other]. *)
Theorem probe_effects
    (X : Externals) (filePath : string) (w w' : World) (r : Result string) :
  Videos.getVideoAspectRatio X filePath w = (r, w') ->
  events_since w w' = [EvSpawn (ffprobe_command filePath)] /\
  db w' = db w /\ bucket w' = bucket w /\
  videoThumbnails w' = videoThumbnails w /\
  disk w' = disk_after (spawn X (ffprobe_command filePath) (disk w)) /\
  (exited (spawn X (ffprobe_command filePath) (disk w)) <> 0 ->
   r = Throw (Error (stderr (spawn X (ffprobe_command filePath) (disk w))))) /\
  (forall c, r = Ok c ->
     exited (spawn X (ffprobe_command filePath) (disk w)) = 0 /\
     c ∈ categories).
Proof.
  unfold Videos.getVideoAspectRatio, ffprobe_command. unfold_m.
  cbn [disk with_trace with_disk trace db bucket videoThumbnails].
  destruct (exited _ =? 0) eqn:Hexit; cbn [negb].
  - apply Z.eqb_eq in Hexit.
    repeat case_step; intros [= <- <-].
    all: split; [apply events_since_app; trace_eq|].
    all: do 4 (split; [reflexivity|]).
    all: split; [intros Hne; by destruct Hne|].
    all: intros c Hc;
      first [ discriminate Hc
            | injection Hc as <-; split;
              [assumption | eapply aspect_in_categories; eassumption] ].
  - apply Z.eqb_neq in Hexit. intros [= <- <-].
    split; [apply events_since_app; trace_eq|].
    do 4 (split; [reflexivity|]).
    split; [reflexivity|]. intros c Hc. discriminate Hc.
Qed.

Lemma probe_effects_witness :
  events_since Demo.world
    (snd (Videos.getVideoAspectRatio (Demo.externals None) "/srv/assets/v1.mp4"
            Demo.world))
  = [EvSpawn (ffprobe_command "/srv/assets/v1.mp4")].
Proof.
  exact (proj1 (probe_effects (Demo.externals None) "/srv/assets/v1.mp4"
                  Demo.world _ _ (surjective_pairing _))).
Defined.

(** X19: when the probe output has no [streams] entry, or a falsy or empty
    one, [getVideoAspectRatio] fails with "No video streams found". *)
Theorem probe_without_streams
    (X : Externals) (filePath : string) (w : World) (output s : JsVal) :
  exited (spawn X (ffprobe_command filePath) (disk w)) = 0 ->
  JSON_parse X (stdout (spawn X (ffprobe_command filePath) (disk w))) = Ok output ->
  js_get output "streams" = Ok s ->
  js_truthy s = false \/ s = JArr [] ->
  fst (Videos.getVideoAspectRatio X filePath w)
  = Throw (Error "No video streams found").
Proof.
  intros Hexit Hparse Hstreams Hempty.
  unfold Videos.getVideoAspectRatio, ffprobe_command in *. unfold_m.
  cbn [disk with_trace with_disk trace].
  rewrite Hexit. cbn [Z.eqb negb]. rewrite Hparse. cbn [fst].
  rewrite Hstreams. cbn [fst].
  destruct Hempty as [Hfalsy | ->].
  - rewrite Hfalsy. reflexivity.
  - reflexivity.
Qed.

Lemma probe_without_streams_witness :
  fst (Videos.getVideoAspectRatio (Demo.with_probe (JObj [])) "/srv/assets/v1.mp4"
         Demo.world)
  = Throw (Error "No video streams found").
Proof.
  apply (probe_without_streams (Demo.with_probe (JObj [])) "/srv/assets/v1.mp4"
           Demo.world (JObj []) JUndefined).
  - reflexivity.
  - reflexivity.
  - reflexivity.
  - left. reflexivity.
Defined.

(** X20: when neither [width] nor [height] of the first stream is a
    number (an audio stream, say), no comparison of the classification can
    hold: [getVideoAspectRatio] fails with the exception that the
    conversion of [height] to a number throws, else with the one that the
    conversion of [width] throws, and returns [other] when both convert.
    Both convert whenever the two values are absent, null, booleans or
    strings. *)
Theorem probe_without_dimensions
    (X : Externals) (filePath : string) (w : World) (output first wv hv : JsVal)
    (rest : list JsVal) :
  exited (spawn X (ffprobe_command filePath) (disk w)) = 0 ->
  JSON_parse X (stdout (spawn X (ffprobe_command filePath) (disk w))) = Ok output ->
  js_get output "streams" = Ok (JArr (first :: rest)) ->
  Z.of_nat (length (first :: rest)) < 2 ^ 32 ->
  js_get first "width" = Ok wv -> js_get first "height" = Ok hv ->
  is_number wv = false -> is_number hv = false ->
  fst (Videos.getVideoAspectRatio X filePath w)
    = match ToNumber X hv, ToNumber X wv with
      | Throw e, _ => Throw e
      | Ok _, Throw e => Throw e
      | Ok _, Ok _ => Ok "other"
      end /\
  (is_primitive wv = true -> is_primitive hv = true ->
   fst (Videos.getVideoAspectRatio X filePath w) = Ok "other").
Proof.
  intros Hexit Hparse Hstreams Hlen Hwidth Hheight Hw Hh.
  assert (Hlen0 :
    strict_eq_num (JNum (JsNumber.of_Z (Z.of_nat (length (first :: rest)))))
      (JsNumber.of_Z 0) = false).
  { unfold strict_eq_num. rewrite eqb_of_Z by lia.
    apply Z.eqb_neq. simpl length. lia. }
  assert (Hneq : forall (v : JsVal) (n : JsNumber.number),
            is_number v = false -> strict_eq_num v n = false).
  { intros v n Hv. destruct v; first [discriminate Hv | reflexivity]. }
  assert (Hrun : fst (Videos.getVideoAspectRatio X filePath w)
                 = match ToNumber X hv, ToNumber X wv with
                   | Throw e, _ => Throw e
                   | Ok _, Throw e => Throw e
                   | Ok _, Ok _ => Ok "other"
                   end).
  { unfold Videos.getVideoAspectRatio, ffprobe_command in *. unfold_m.
    cbn [fst snd disk with_trace with_disk trace negb].
    rewrite Hexit. cbn [Z.eqb negb fst]. rewrite Hparse. cbn [fst js_truthy negb].
    rewrite Hstreams. cbn [fst js_truthy negb js_get String.eqb Ascii.eqb Bool.eqb].
    rewrite Hlen0. cbn [js_first]. rewrite Hwidth, Hheight. cbn [fst].
    unfold Videos.aspect.
    destruct (ToNumber X hv) as [h|e]; [|reflexivity].
    rewrite (Hneq wv _ Hw).
    destruct (ToNumber X wv) as [wn|e]; [|reflexivity].
    rewrite (Hneq hv _ Hh). reflexivity. }
  split; [exact Hrun|].
  intros Hpw Hph. rewrite Hrun.
  destruct hv; try discriminate Hph; destruct wv; try discriminate Hpw;
    reflexivity.
Qed.

Lemma probe_without_dimensions_witness :
  fst (Videos.getVideoAspectRatio (Demo.with_probe Demo.audio_json)
         "/srv/assets/v1.mp4" Demo.world)
  = Ok "other".
Proof.
  destruct (probe_without_dimensions (Demo.with_probe Demo.audio_json)
              "/srv/assets/v1.mp4" Demo.world Demo.audio_json
              (JObj [("codec_type", JStr "audio")]) JUndefined JUndefined [])
    as [_ Hother].
  - reflexivity.
  - reflexivity.
  - reflexivity.
  - simpl. lia.
  - reflexivity.
  - reflexivity.
  - reflexivity.
  - reflexivity.
  - apply Hother; reflexivity.
Defined.

(** X21: [processVideoForFastStart] spawns exactly one process, ffmpeg
    from the input path to the input path followed by [.processed], and
    touches neither table nor bucket; it returns that output path, which
    always differs from the input path, on exit status 0 and fails with the
    text of stderr otherwise. *)
Theorem transcode_effects
    (X : Externals) (inputFilePath : string) (w w' : World) (r : Result string) :
  Videos.processVideoForFastStart X inputFilePath w = (r, w') ->
  events_since w w' = [EvSpawn (ffmpeg_command inputFilePath)] /\
  db w' = db w /\ bucket w' = bucket w /\
  disk w' = disk_after (spawn X (ffmpeg_command inputFilePath) (disk w)) /\
  r = (if exited (spawn X (ffmpeg_command inputFilePath) (disk w)) =? 0
       then Ok (inputFilePath +:+ ".processed")
       else Throw (Error (stderr (spawn X (ffmpeg_command inputFilePath) (disk w))))) /\
  last (ffmpeg_command inputFilePath) = Some (inputFilePath +:+ ".processed") /\
  inputFilePath +:+ ".processed" <> inputFilePath.
Proof.
  unfold Videos.processVideoForFastStart, ffmpeg_command. unfold_m.
  cbn [disk with_trace with_disk trace db bucket].
  intros Hrun.
  assert (Hdiff : inputFilePath +:+ ".processed" <> inputFilePath).
  { intros Heq. apply (f_equal String.length) in Heq.
    rewrite append_length in Heq. simpl in Heq. lia. }
  destruct (exited _ =? 0) eqn:Hexit; cbn [negb] in Hrun;
    injection Hrun as <- <-.
  all: split; [apply events_since_app; trace_eq|].
  all: do 4 (split; [reflexivity|]); split; [reflexivity | exact Hdiff].
Qed.

Lemma transcode_effects_witness :
  events_since Demo.world
    (snd (Videos.processVideoForFastStart (Demo.externals None)
            "/srv/assets/v1.mp4" Demo.world))
  = [EvSpawn (ffmpeg_command "/srv/assets/v1.mp4")].
Proof.
  exact (proj1 (transcode_effects (Demo.externals None) "/srv/assets/v1.mp4"
                  Demo.world _ _ (surjective_pairing _))).
Defined.

(** X22: every exact 16:9 frame (16k by 9k) is classified [landscape] and
    every exact 9:16 frame (9k by 16k) [portrait]. *)
Theorem sixteen_by_nine_shapes (X : Externals) (k : Z) :
  1 <= k -> 16 * k < 2 ^ 31 ->
  Videos.aspect X (JNum (JsNumber.of_Z (16 * k))) (JNum (JsNumber.of_Z (9 * k)))
    = Ok "landscape" /\
  Videos.aspect X (JNum (JsNumber.of_Z (9 * k))) (JNum (JsNumber.of_Z (16 * k)))
    = Ok "portrait".
Proof.
  intros Hk Hmax.
  rewrite !aspect_of_dimensions by lia.
  assert (H1 : 16 * (9 * k) / 9 = 16 * k)
    by (Z.to_euclidean_division_equations; lia).
  assert (H2 : 9 * k <> 16 * (16 * k) / 9)
    by (Z.to_euclidean_division_equations; lia).
  rewrite H1, Z.eqb_refl.
  apply Z.eqb_neq in H2. rewrite H2. split; reflexivity.
Qed.

Lemma sixteen_by_nine_shapes_witness :
  Videos.aspect (Demo.externals None)
    (JNum (JsNumber.of_Z (16 * 240))) (JNum (JsNumber.of_Z (9 * 240)))
  = Ok "landscape".
Proof.
  exact (proj1 (sixteen_by_nine_shapes (Demo.externals None) 240
                  ltac:(lia) ltac:(lia))).
Defined.

(** X23: in integers, a frame is [landscape] exactly when
    [9 * width <= 16 * height < 9 * width + 9], and [portrait] exactly when
    the same holds with the two dimensions exchanged and the frame is not
    [landscape]. *)
Theorem landscape_band (X : Externals) (width height : Z) :
  0 <= width < 2 ^ 31 -> 0 <= height < 2 ^ 31 ->
  (Videos.aspect X (JNum (JsNumber.of_Z width)) (JNum (JsNumber.of_Z height))
     = Ok "landscape"
   <-> 9 * width <= 16 * height < 9 * width + 9) /\
  (Videos.aspect X (JNum (JsNumber.of_Z width)) (JNum (JsNumber.of_Z height))
     = Ok "portrait"
   <-> 9 * height <= 16 * width < 9 * height + 9 /\
       ~ (9 * width <= 16 * height < 9 * width + 9)).
Proof.
  intros Hw Hh.
  rewrite !aspect_of_dimensions by lia.
  assert (H1 : width = 16 * height / 9 <-> 9 * width <= 16 * height < 9 * width + 9)
    by (Z.to_euclidean_division_equations; lia).
  assert (H2 : height = 16 * width / 9 <-> 9 * height <= 16 * width < 9 * height + 9)
    by (Z.to_euclidean_division_equations; lia).
  destruct (Z.eqb_spec width (16 * height / 9)) as [E1 | E1];
    destruct (Z.eqb_spec height (16 * width / 9)) as [E2 | E2];
    repeat split; intros; try discriminate; try tauto; try (exfalso; tauto).
Qed.

Lemma landscape_band_witness :
  Videos.aspect (Demo.externals None)
    (JNum (JsNumber.of_Z 1366)) (JNum (JsNumber.of_Z 768)) = Ok "landscape"
  <-> 9 * 1366 <= 16 * 768 < 9 * 1366 + 9.
Proof.
  exact (proj1 (landscape_band (Demo.externals None) 1366 768
                  ltac:(lia) ltac:(lia))).
Defined.
